(** * NumberField (src/Field/Number.js): a shallow embedding

    The numeric field of the form framework: option accessors, the stepping
    search [stepValue], validation, filtering, randomisation and the value
    description.  JavaScript numbers are IEEE 754 binary64 values, which is
    what the kernel's primitive [float] is, so the arithmetic and the
    comparisons of the source are the primitive ones and concrete runs of
    the code evaluate by computation. *)

From Stdlib Require Import Bool ZArith List String Lia.
From Stdlib Require Import Floats.
From Stdlib Require Uint63.
Import ListNotations.

Local Open Scope bool_scope.
Local Open Scope string_scope.

(** ** JavaScript values and operators *)

(** The primitive values a number field stores and receives: [undefined]
    (also what reading an absent option gives), [null], booleans and
    numbers.  Strings are outside the embedding, so [+] is the numeric
    addition and the relational operators compare numbers. *)
Inductive value : Type :=
| VUndefined
| VNull
| VBool (b : bool)
| VNum (x : float).

(** ToNumber. *)
Definition ToNumber (v : value) : float :=
  match v with
  | VUndefined => nan
  | VNull => zero
  | VBool true => one
  | VBool false => zero
  | VNum x => x
  end.

(** ToBoolean: [undefined], [null], [false], [0], [-0] and [NaN] are falsy. *)
Definition truthy (v : value) : bool :=
  match v with
  | VUndefined | VNull => false
  | VBool b => b
  | VNum x => negb (PrimFloat.is_zero x || PrimFloat.is_nan x)
  end.

(** [a || b] and [a && b] return one of their operands. *)
Definition js_or (a b : value) : value := if truthy a then a else b.
Definition js_and (a b : value) : value := if truthy a then b else a.

(** [a === b]: same type and same value; on numbers the IEEE equality
    ([NaN] differs from itself, [0] equals [-0]). *)
Definition strict_eq (a b : value) : bool :=
  match a, b with
  | VUndefined, VUndefined => true
  | VNull, VNull => true
  | VBool x, VBool y => Bool.eqb x y
  | VNum x, VNum y => PrimFloat.eqb x y
  | _, _ => false
  end.

Definition strict_neq (a b : value) : bool := negb (strict_eq a b).

(** Relational operators on values that are not strings: both sides go
    through ToNumber, and a comparison with [NaN] is false. *)
Definition js_lt (a b : value) : bool := PrimFloat.ltb (ToNumber a) (ToNumber b).
Definition js_gt (a b : value) : bool := PrimFloat.ltb (ToNumber b) (ToNumber a).
Definition js_ge (a b : value) : bool := PrimFloat.leb (ToNumber b) (ToNumber a).

(** [a + b], [a - b] and [-a] on values that are not strings. *)
Definition js_add (a b : value) : value := VNum (ToNumber a + ToNumber b).
Definition js_sub (a b : value) : value := VNum (ToNumber a - ToNumber b).
Definition js_neg (a : value) : value := VNum (- ToNumber a).

(** The global [isNaN] and [isFinite]. *)
Definition isNaN (v : value) : bool := is_nan (ToNumber v).
Definition isFinite (v : value) : bool := is_finite (ToNumber v).

(** An integer below [2^63] as a number (exact below [2^53]). *)
Definition float_of_Z (z : Z) : float := of_uint63 (Uint63.of_Z z).

(** [Math.ceil] on a number [(-1)^s * m * 2^e]. *)
Definition ceil_float (x : float) : float :=
  match Prim2SF x with
  | S754_finite s m e =>
      if (0 <=? e)%Z then x
      else
        let d := (2 ^ (- e))%Z in
        let q := (Zpos m / d)%Z in
        if s then (if (q =? 0)%Z then neg_zero else (- float_of_Z q)%float)
        else if (Zpos m mod d =? 0)%Z then float_of_Z q
             else float_of_Z (q + 1)
  | _ => x
  end.

Definition Math_ceil (v : value) : value := VNum (ceil_float (ToNumber v)).

(** ** Collaborators of the field *)

(** What a method hands back to its caller when the result is used for
    chaining: the receiver itself ([return this]) or some other value; a
    method that runs off its end returns [undefined]. *)
Inductive ret : Type :=
| RetThis
| RetValue (v : value).

(** A template literal: its text chunks and interpolated values in order. *)
Inductive part : Type :=
| Txt (s : string)
| Interp (v : value).

(** The message object of a failed validation. *)
Record failure : Type := { key : string; message : list part }.

(** What [validateValue] returns: [true], [false] or a message object. *)
Inductive validation : Type :=
| Valid
| Invalid
| Failed (e : failure).

(** [r === true]. *)
Definition is_true (r : validation) : bool :=
  match r with
  | Valid => true
  | _ => false
  end.

(** The key of a failed validation, if any. *)
Definition failure_key (r : validation) : option string :=
  match r with
  | Failed e => Some (key e)
  | _ => None
  end.

(** The options bag of the constructor.  An absent entry reads as
    [undefined]; an absent (or null) [describeValue] is [None]. *)
Record Options (Callback : Type) : Type := {
  integer : value;
  step : value;
  min : value;
  max : value;
  rotate : value;
  describeValue : option Callback
}.
Arguments integer {Callback} _.
Arguments step {Callback} _.
Arguments min {Callback} _.
Arguments max {Callback} _.
Arguments rotate {Callback} _.
Arguments describeValue {Callback} _.

(** The empty bag [{}]. *)
Definition no_options {Callback : Type} : Options Callback :=
  {| integer := VUndefined; step := VUndefined; min := VUndefined;
     max := VUndefined; rotate := VUndefined; describeValue := None |}.

(** The instance state: the part owned by the base class [Field] and the
    properties the constructor of [NumberField] adds.  ([_viewPrototype] is
    a constant class reference and is left out.) *)
Record NumberField (Base Callback : Type) : Type := {
  base : Base;
  _integer : value;
  _step : value;
  _min : value;
  _max : value;
  _rotate : value;
  _describeValueCallback : option Callback
}.
Arguments base {Base Callback} _.
Arguments _integer {Base Callback} _.
Arguments _step {Base Callback} _.
Arguments _min {Base Callback} _.
Arguments _max {Base Callback} _.
Arguments _rotate {Base Callback} _.
Arguments _describeValueCallback {Base Callback} _.

(** The collaborators the class is written against and that live outside
    src/Field/Number.js: the host's [parseInt] and [parseFloat], the base
    class [Field] (value storage, validity, generic validation, filtering
    and randomisation, the attached view), the [describeValue] functions and
    the random number generator.  Base methods see the whole instance,
    since they call back into overridden methods, and own only [base]. *)
Class Env : Type := {
  Base : Type;
  Callback : Type;
  Random : Type;
  FieldSpec : Type;
  parseInt : value -> float;
  parseFloat : value -> float;
  Field_constructor : string -> FieldSpec -> Base;
  Field_getValue : Base -> value;
  Field_isValid : Base -> bool;
  Field_setValue : NumberField Base Callback -> value -> Base * ret;
  Field_revalidateValue : NumberField Base Callback -> Base * ret;
  Field_validateValue : NumberField Base Callback -> value -> validation;
  Field_filterValue : NumberField Base Callback -> value -> value;
  Field_randomizeValue : NumberField Base Callback -> Random -> value * Random;
  Field_hasView : Base -> bool;
  View_updateValue : Base -> Base;
  invoke : Callback -> value -> NumberField Base Callback -> option string;
  nextInteger : Random -> value -> value -> value * Random;
  nextFloat : Random -> value -> value -> value * Random
}.

(** The [spec] argument of the constructor: what the base class reads and
    the optional options bag. *)
Record Spec `{Env} : Type := {
  field_spec : FieldSpec;
  options : option (Options Callback)
}.

(** ** The class *)

Section NumberFieldClass.
Context `{E : Env}.

Definition field : Type := NumberField Base Callback.

Definition with_base (f : field) (b : Base) : field :=
  {| base := b; _integer := _integer f; _step := _step f; _min := _min f;
     _max := _max f; _rotate := _rotate f;
     _describeValueCallback := _describeValueCallback f |}.

Definition constructor (name : string) (spec : Spec) : field :=
  let b := Field_constructor name (field_spec spec) in
  let options := match options spec with Some o => o | None => no_options end in
  let integer' := js_or (integer options) (VBool false) in
  let step' := js_or (step options) (VNum 1) in
  let min' := js_or (min options) VNull in
  let max' := js_or (max options) VNull in
  let rotate' :=
    js_and (js_and (js_or (rotate options) (VBool true))
                   (VBool (strict_neq min' VNull)))
           (VBool (strict_neq max' VNull)) in
  {| base := b; _integer := integer'; _step := step'; _min := min';
     _max := max'; _rotate := rotate';
     _describeValueCallback := describeValue options |}.

Definition isInteger (f : field) : value := _integer f.

Definition setInteger (integer : value) (f : field) : field * ret :=
  let f := {| base := base f; _integer := integer; _step := _step f;
              _min := _min f; _max := _max f; _rotate := _rotate f;
              _describeValueCallback := _describeValueCallback f |} in
  let (b, r) := Field_revalidateValue f in
  (with_base f b, r).

Definition getStep (f : field) : value := _step f.

Definition setStep (step : value) (f : field) : field * ret :=
  ({| base := base f; _integer := _integer f; _step := step;
      _min := _min f; _max := _max f; _rotate := _rotate f;
      _describeValueCallback := _describeValueCallback f |}, RetThis).

Definition getMin (f : field) : value := _min f.

Definition setMin (min : value) (f : field) : field * ret :=
  let f := {| base := base f; _integer := _integer f; _step := _step f;
              _min := min; _max := _max f; _rotate := _rotate f;
              _describeValueCallback := _describeValueCallback f |} in
  let (b, r) := Field_revalidateValue f in
  (with_base f b, r).

Definition getMax (f : field) : value := _max f.

Definition setMax (max : value) (f : field) : field * ret :=
  let f := {| base := base f; _integer := _integer f; _step := _step f;
              _min := _min f; _max := max; _rotate := _rotate f;
              _describeValueCallback := _describeValueCallback f |} in
  let (b, r) := Field_revalidateValue f in
  (with_base f b, r).

Definition isRotate (f : field) : value := _rotate f.

Definition setRotate (rotate : value) (f : field) : field * ret :=
  ({| base := base f; _integer := _integer f; _step := _step f;
      _min := _min f; _max := _max f;
      _rotate := js_and (js_and rotate (VBool (strict_neq (_min f) VNull)))
                        (VBool (strict_neq (_max f) VNull));
      _describeValueCallback := _describeValueCallback f |}, RetThis).

Definition filterValue (f : field) (rawValue : value) : value :=
  let rawValue :=
    if truthy (isInteger f) then VNum (parseInt rawValue)
    else VNum (parseFloat rawValue) in
  Field_filterValue f rawValue.

Definition validateValue (f : field) (rawValue : value) : validation :=
  let value := filterValue f rawValue in
  if isNaN value || negb (isFinite value) then
    Failed {| key := "numberNotNumeric";
              message := [Txt "The value is not numeric"] |}
  else if strict_neq (_min f) VNull && js_lt value (_min f) then
    Failed {| key := "numberTooSmall";
              message := [Txt "The value must be greater than or equal to ";
                          Interp (_min f)] |}
  else if strict_neq (_max f) VNull && js_ge value (_max f) then
    Failed {| key := "numberTooLarge";
              message := [Txt "The value must be less than ";
                          Interp (_max f)] |}
  else Field_validateValue f value.

(** *** stepValue

    The local variables of [stepValue].  [tries] and [maxTries] are counts
    and are kept in [nat] (the source's doubles count exactly below
    [2^53]).  The embedding follows the source for the whole counts up to
    [2^53] ([whole_count]); beyond, the double [tries] stops advancing
    and the source's loop need not end, so the statements about the end of
    the loop carry that bound.  [validated] is a ghost trace: the
    candidates handed to [validateValue] so far, newest first. *)
Record locals : Type := {
  value_ : value;
  tries : nat;
  valueFound : bool;
  validated : list value
}.

(** The values of [maxTries] at which the double counter [tries] of the
    source is exact all the way: the whole counts up to [2^53]. *)
Definition whole_count (maxTries : nat) : Prop :=
  (Z.of_nat maxTries <= 2 ^ 53)%Z.

(** The last two conjuncts of the loop condition: stop when reaching the
    limits with rotation disabled. *)
Definition within_limits (f : field) (step : value) (v : value) : bool :=
  (truthy (_rotate f) || js_gt step (VNum 0) || strict_neq v (_min f))
  && (truthy (_rotate f) || js_lt step (VNum 0) || strict_neq v (_max f)).

(** [tries++]. *)
Definition count_try (l : locals) : locals :=
  {| value_ := value_ l; tries := S (tries l); valueFound := valueFound l;
     validated := validated l |}.

(** One evaluation of the loop condition: its outcome and the locals after
    it ([tries++] runs whenever [!valueFound] holds). *)
Definition loop_cond (f : field) (step : value) (maxTries : nat) (l : locals)
  : bool * locals :=
  if valueFound l then (false, l)
  else
    ((tries l <? maxTries)%nat && within_limits f step (value_ l),
     count_try l).

(** The candidate of one iteration: the stepped value, rotated at the
    limits. *)
Definition candidate (f : field) (step : value) (v : value) : value :=
  let v := js_add v step in
  if truthy (_rotate f) && js_gt v (_max f) && truthy (_rotate f) then _min f
  else if truthy (_rotate f) && js_lt v (_min f) && truthy (_rotate f) then
    js_add (_max f) step
  else v.

(** One execution of the loop body. *)
Definition loop_body (f : field) (step : value) (l : locals) : locals :=
  let v := candidate f step (value_ l) in
  {| value_ := v; tries := tries l;
     valueFound := is_true (validateValue f v);
     validated := v :: validated l |}.

(** The [while] loop, run for at most [fuel] evaluations of its condition;
    [None] when the fuel runs out first. *)
Fixpoint while (fuel : nat) (f : field) (step : value) (maxTries : nat)
  (l : locals) : option locals :=
  match fuel with
  | O => None
  | S fuel' =>
      let (c, l') := loop_cond f step maxTries l in
      if c then while fuel' f step maxTries (loop_body f step l')
      else Some l'
  end.

Definition stepValue_init (f : field) : locals :=
  {| value_ := Field_getValue (base f); tries := 0; valueFound := false;
     validated := [] |}.

(** The locals at the [return] of [stepValue]; the loop needs at most
    [maxTries + 1] evaluations of its condition ([while_enough_fuel]). *)
Definition stepValue_run (f : field) (step : value) (maxTries : nat)
  : option locals :=
  while (S maxTries) f step maxTries (stepValue_init f).

Definition stepValue (f : field) (step : value) (maxTries : nat) : value :=
  match stepValue_run f step maxTries with
  | Some l => if valueFound l then value_ l else VNull
  | None => VNull
  end.

(** The number of step-and-validate attempts of a call. *)
Definition stepValue_attempts (f : field) (step : value) (maxTries : nat)
  : nat :=
  match stepValue_run f step maxTries with
  | Some l => List.length (validated l)
  | None => 0
  end.

(** The default of the parameter [maxTries]. *)
Definition default_maxTries : nat := 100.

Definition stepUp (f : field) : field * ret :=
  let value := stepValue f (_step f) default_maxTries in
  if strict_neq value VNull then
    let (b, r) := Field_setValue f value in (with_base f b, r)
  else (f, RetThis).

Definition stepDown (f : field) : field * ret :=
  let value := stepValue f (js_neg (_step f)) default_maxTries in
  if strict_neq value VNull then
    let (b, r) := Field_setValue f value in (with_base f b, r)
  else (f, RetThis).

(** *** Value description *)

(** The description is a string or [null] ([None]). *)
Definition getValueDescription (f : field) : option string :=
  if negb (Field_isValid (base f))
     || match _describeValueCallback f with None => true | Some _ => false end
  then None
  else
    match _describeValueCallback f with
    | Some describe => invoke describe (Field_getValue (base f)) f
    | None => None
    end.

(** [this.hasView() && this.getView().updateValue()], and no [return]. *)
Definition setNeedsValueDescriptionUpdate (f : field) : field * ret :=
  (if Field_hasView (base f) then with_base f (View_updateValue (base f))
   else f,
   RetValue VUndefined).

(** *** Randomisation *)

Definition randomizeValue (f : field) (random : Random) : value * Random :=
  let (value, random) := Field_randomizeValue f random in
  if strict_neq value VNull then (value, random)
  else if strict_neq (getMin f) VNull && strict_neq (getMax f) VNull then
    if truthy (isInteger f) then
      nextInteger random (getMin f) (js_sub (Math_ceil (getMax f)) (VNum 1))
    else nextFloat random (getMin f) (getMax f)
  else (VNull, random).

(** *** Call sequences

    The mutators a caller can chain after the constructor. *)
Inductive call : Type :=
| CallSetInteger (integer : value)
| CallSetStep (step : value)
| CallSetMin (min : value)
| CallSetMax (max : value)
| CallSetRotate (rotate : value)
| CallStepUp
| CallStepDown
| CallSetNeedsValueDescriptionUpdate.

Definition perform (c : call) (f : field) : field * ret :=
  match c with
  | CallSetInteger v => setInteger v f
  | CallSetStep v => setStep v f
  | CallSetMin v => setMin v f
  | CallSetMax v => setMax v f
  | CallSetRotate v => setRotate v f
  | CallStepUp => stepUp f
  | CallStepDown => stepDown f
  | CallSetNeedsValueDescriptionUpdate => setNeedsValueDescriptionUpdate f
  end.

(** The instance after a sequence of calls, first call first. *)
Definition perform_all (cs : list call) (f : field) : field :=
  fold_left (fun f c => fst (perform c f)) cs f.

(** *** Further notions for the properties below *)

(** The [k]-th candidate of a search that starts from [v] and never finds
    a valid value: the loop body's update applied [k] times. *)
Fixpoint nth_candidate (f : field) (step : value) (k : nat) (v : value)
  : value :=
  match k with
  | O => v
  | S k' => nth_candidate f step k' (candidate f step v)
  end.

(** Two instances carry the same options: everything the constructor of
    [NumberField] adds to the base state. *)
Definition same_options (f g : field) : Prop :=
  _integer g = _integer f /\ _step g = _step f /\ _min g = _min f /\
  _max g = _max f /\ _rotate g = _rotate f /\
  _describeValueCallback g = _describeValueCallback f.

(** The rotation flag is on only with both bounds present. *)
Definition rotate_needs_bounds (f : field) : Prop :=
  truthy (_rotate f) = true -> _min f <> VNull /\ _max f <> VNull.

(** The shape of the trace: the newest candidate is the running value,
    everything before it was rejected, and nothing is found on an empty
    trace. *)
Definition trace_shape (f : field) (l : locals) : Prop :=
  (forall v : value, In v (tl (validated l)) ->
     is_true (validateValue f v) = false) /\
  (valueFound l = false ->
   forall v : value, In v (validated l) ->
     is_true (validateValue f v) = false) /\
  (valueFound l = true ->
   exists rest : list value, validated l = value_ l :: rest).

(** The options of an instance, apart from its base state. *)
Record option_state : Type := {
  o_integer : value;
  o_step : value;
  o_min : value;
  o_max : value;
  o_rotate : value;
  o_describe : option Callback
}.

Definition options_of (f : field) : option_state :=
  {| o_integer := _integer f; o_step := _step f; o_min := _min f;
     o_max := _max f; o_rotate := _rotate f;
     o_describe := _describeValueCallback f |}.

(** What a call does to the options, read off the setters alone. *)
Definition replay_call (c : call) (o : option_state) : option_state :=
  match c with
  | CallSetInteger v =>
      {| o_integer := v; o_step := o_step o; o_min := o_min o;
         o_max := o_max o; o_rotate := o_rotate o;
         o_describe := o_describe o |}
  | CallSetStep v =>
      {| o_integer := o_integer o; o_step := v; o_min := o_min o;
         o_max := o_max o; o_rotate := o_rotate o;
         o_describe := o_describe o |}
  | CallSetMin v =>
      {| o_integer := o_integer o; o_step := o_step o; o_min := v;
         o_max := o_max o; o_rotate := o_rotate o;
         o_describe := o_describe o |}
  | CallSetMax v =>
      {| o_integer := o_integer o; o_step := o_step o; o_min := o_min o;
         o_max := v; o_rotate := o_rotate o;
         o_describe := o_describe o |}
  | CallSetRotate v =>
      {| o_integer := o_integer o; o_step := o_step o; o_min := o_min o;
         o_max := o_max o;
         o_rotate := js_and (js_and v (VBool (strict_neq (o_min o) VNull)))
                            (VBool (strict_neq (o_max o) VNull));
         o_describe := o_describe o |}
  | _ => o
  end.

Definition replay (cs : list call) (o : option_state) : option_state :=
  fold_left (fun o c => replay_call c o) cs o.

(** A call that does not clear a bound. *)
Definition keeps_bounds (c : call) : Prop :=
  match c with
  | CallSetMin v | CallSetMax v => v <> VNull
  | _ => True
  end.

(** A call that is one of the setters of the options. *)
Definition is_option_setter (c : call) : bool :=
  match c with
  | CallSetInteger _ | CallSetStep _ | CallSetMin _ | CallSetMax _
  | CallSetRotate _ => true
  | _ => false
  end.

End NumberFieldClass.

(** *** viewValueDidChange

    The base [setValue] with a sender, which [viewValueDidChange] hands the
    view to; like the other base methods it lives outside
    src/Field/Number.js. *)
Class ViewEnv `{E : Env} : Type := {
  View : Type;
  Field_setValue_from : NumberField Base Callback -> value -> View -> Base * ret
}.

(** [this.setValue(value, view)], and no [return]. *)
Definition viewValueDidChange `{V : ViewEnv} (view : View) (v : value)
  (f : field) : field * ret :=
  let (b, _) := Field_setValue_from f v view in
  (with_base f b, RetValue VUndefined).

(** What happens to a field over its life: calls of its mutators, and
    edits arriving from a view. *)
Inductive event `{V : ViewEnv} : Type :=
| Call (c : call)
| ViewChange (view : View) (v : value).

Definition handle `{V : ViewEnv} (e : event) (f : field) : field :=
  match e with
  | Call c => fst (perform c f)
  | ViewChange view v => fst (viewValueDidChange view v f)
  end.

Definition handle_all `{V : ViewEnv} (es : list event) (f : field) : field :=
  fold_left (fun f e => handle e f) es f.

(** An event that is not a setter of an option. *)
Definition event_keeps_options `{V : ViewEnv} (e : event) : bool :=
  match e with
  | Call c => negb (is_option_setter c)
  | ViewChange _ _ => true
  end.

(** An event that does not clear a bound. *)
Definition event_keeps_bounds `{V : ViewEnv} (e : event) : Prop :=
  match e with
  | Call c => keeps_bounds c
  | ViewChange _ _ => True
  end.

(** ** A reference set of collaborators

    A plain base class and host on which the class runs on concrete
    inputs: the base stores the value as given, validates with a custom
    validator, filters nothing and randomises nothing. *)

Record RefBase : Type := {
  stored : value;
  valid : bool;
  validator : value -> validation;
  views : nat
}.

(** [parseFloat] of a primitive that is not a string: a number reads back
    from its own rendering ([-0] renders as ["0"]); anything else renders
    as a word. *)
Definition ref_parseFloat (v : value) : float :=
  match v with
  | VNum x => if PrimFloat.is_zero x then zero else x
  | _ => nan
  end.

(** The integral part of a number, towards zero. *)
Definition trunc_float (x : float) : float :=
  match Prim2SF x with
  | S754_finite s m e =>
      if (0 <=? e)%Z then x
      else
        let q := (Zpos m / 2 ^ (- e))%Z in
        if s then (if (q =? 0)%Z then neg_zero else (- float_of_Z q)%float)
        else float_of_Z q
  | _ => x
  end.

(** Comparison of the decimal [d * 10^j] with the fraction [a / q]
    ([q > 0]), by cross multiplication. *)
Definition compare_decimal (d j a q : Z) : comparison :=
  if (0 <=? j)%Z then (d * 10 ^ j * q ?= a)%Z
  else (d * q ?= a * 10 ^ (- j))%Z.

(** The decimal exponent of [a / q]: the largest [j' <= j] with
    [10^j' <= a / q], searched downwards. *)
Fixpoint decimal_exponent (fuel : nat) (j a q : Z) : Z :=
  match fuel with
  | O => j
  | S fuel' =>
      match compare_decimal 1 j a q with
      | Gt => decimal_exponent fuel' (j - 1) a q
      | _ => j
      end
  end.

(** The leading decimal digit of [a / q] at exponent [j]: the largest
    [d' <= d] with [d' * 10^j <= a / q]. *)
Fixpoint leading_digit (fuel : nat) (d j a q : Z) : Z :=
  match fuel with
  | O => d
  | S fuel' =>
      match compare_decimal d j a q with
      | Gt => leading_digit fuel' (d - 1) j a q
      | _ => d
      end
  end.

(** The first digit of the rendering of the number [m * 2^e] (Number's
    toString: the shortest decimal that reads back as the number, the
    closest one when several are as short).  In quarters of the last place
    the number is [x], and the decimals that read back as it lie between
    [lo] and [hi], the ends included when [m] is even.  If a one-digit
    decimal lies there, the rendering is the closest such one; otherwise
    every decimal there starts with the digit the number itself starts
    with. *)
Definition rendered_leading_digit (m : positive) (e : Z) : Z :=
  let u := if (0 <=? e)%Z then (2 ^ e)%Z else 1%Z in
  let q := (4 * (if (0 <=? e)%Z then 1 else 2 ^ (- e)))%Z in
  let x := (4 * Zpos m * u)%Z in
  let hi := (x + 2 * u)%Z in
  let lo :=
    if (Zpos m =? 2 ^ 52)%Z && (-1074 <? e)%Z then (x - u)%Z
    else (x - 2 * u)%Z in
  let even := Z.even (Zpos m) in
  let j := decimal_exponent 640 309 x q in
  let d := leading_digit 8 9 j x q in
  let up := if (d =? 9)%Z then 1%Z else (d + 1)%Z in
  let below_in :=
    match compare_decimal d j lo q with
    | Gt => true
    | Eq => even
    | Lt => false
    end in
  let above_in :=
    match compare_decimal (d + 1) j hi q with
    | Lt => true
    | Eq => even
    | Gt => false
    end in
  if below_in && above_in then
    match compare_decimal (2 * d + 1) j (2 * x) q with
    | Gt => d
    | Lt => up
    | Eq => if Z.even d then d else up
    end
  else if below_in then d
  else if above_in then up
  else d.

(** [parseInt] of a primitive that is not a string.  A number is rendered
    first: without an exponent for [0] and for [1e-6 <= |x| < 1e21] (the
    lower bound being the double [0x1.0c6f7a0b5ed8dp-20]), where [parseInt]
    reads the digits before the decimal point; with an exponent otherwise,
    where it reads the first digit only.  The infinities, [NaN] and the
    other primitives render as words and give [NaN]. *)
Definition ref_parseInt (v : value) : float :=
  match v with
  | VNum x =>
      if PrimFloat.is_zero x then zero
      else if PrimFloat.leb 0x1.0c6f7a0b5ed8dp-20 (abs x) && PrimFloat.ltb (abs x) 1e21
           then trunc_float x
           else
             match Prim2SF x with
             | S754_finite s m e =>
                 let d := float_of_Z (rendered_leading_digit m e) in
                 if s then (- d)%float else d
             | _ => nan
             end
  | _ => nan
  end.

Definition RefEnv : Env := {|
  Base := RefBase;
  Callback := value -> option string;
  Random := unit;
  FieldSpec := value;
  parseInt := ref_parseInt;
  parseFloat := ref_parseFloat;
  Field_constructor := fun _ v =>
    {| stored := v; valid := true; validator := fun _ => Valid; views := 0 |};
  Field_getValue := stored;
  Field_isValid := valid;
  Field_setValue := fun f v =>
    ({| stored := v; valid := valid (base f); validator := validator (base f);
        views := views (base f) |}, RetThis);
  Field_revalidateValue := fun f => (base f, RetThis);
  Field_validateValue := fun f v => validator (base f) v;
  Field_filterValue := fun _ v => v;
  Field_randomizeValue := fun _ r => (VNull, r);
  Field_hasView := fun b => (0 <? views b)%nat;
  View_updateValue := fun b => b;
  invoke := fun describe v _ => describe v;
  nextInteger := fun r a _ => (a, r);
  nextFloat := fun r a _ => (a, r)
|}.

(** A reference field holding [v]: given bounds, step 1, float mode. *)
Definition ref_field (v min max rotate : value)
  (validator : value -> validation) : @field RefEnv :=
  {| base := {| stored := v; valid := true; validator := validator;
                views := 0 |};
     _integer := VBool false; _step := VNum 1; _min := min; _max := max;
     _rotate := rotate; _describeValueCallback := None |}.

(** The same in integer mode. *)
Definition ref_integer_field (v min max rotate : value)
  (validator : value -> validation) : @field RefEnv :=
  {| base := {| stored := v; valid := true; validator := validator;
                views := 0 |};
     _integer := VBool true; _step := VNum 1; _min := min; _max := max;
     _rotate := rotate; _describeValueCallback := None |}.

(** A reference field with a description callback and a validity flag. *)
Definition ref_described_field (v : value) (ok : bool)
  (describe : option (value -> option string)) : @field RefEnv :=
  {| base := {| stored := v; valid := ok; validator := fun _ => Valid;
                views := 0 |};
     _integer := VBool false; _step := VNum 1; _min := VNull; _max := VNull;
     _rotate := VBool false; _describeValueCallback := describe |}.

(** Custom validators: one that accepts and one that rejects everything. *)
Definition accept_all (_ : value) : validation := Valid.
Definition reject_all (_ : value) : validation := Invalid.

(** The reference base with a generic randomisation that yields the stored
    value. *)
Definition RandEnv : Env := {|
  Base := RefBase;
  Callback := value -> option string;
  Random := unit;
  FieldSpec := value;
  parseInt := ref_parseInt;
  parseFloat := ref_parseFloat;
  Field_constructor := fun _ v =>
    {| stored := v; valid := true; validator := fun _ => Valid; views := 0 |};
  Field_getValue := stored;
  Field_isValid := valid;
  Field_setValue := fun f v =>
    ({| stored := v; valid := valid (base f); validator := validator (base f);
        views := views (base f) |}, RetThis);
  Field_revalidateValue := fun f => (base f, RetThis);
  Field_validateValue := fun f v => validator (base f) v;
  Field_filterValue := fun _ v => v;
  Field_randomizeValue := fun f r => (stored (base f), r);
  Field_hasView := fun b => (0 <? views b)%nat;
  View_updateValue := fun b => b;
  invoke := fun describe v _ => describe v;
  nextInteger := fun r a _ => (a, r);
  nextFloat := fun r a _ => (a, r)
|}.

(** The reference base's [setValue] with a sender: the sender is a view
    number and plays no part. *)
Definition RefViewEnv : @ViewEnv RefEnv := {|
  View := nat;
  Field_setValue_from := fun f v _ => @Field_setValue RefEnv f v
|}.

(** A custom validator that accepts the multiples of five between 0 and
    20 only. *)
Definition only_fives (v : value) : validation :=
  match v with
  | VNum x =>
      if PrimFloat.eqb x 0 || PrimFloat.eqb x 5 || PrimFloat.eqb x 10
         || PrimFloat.eqb x 15 || PrimFloat.eqb x 20
      then Valid else Invalid
  | _ => Invalid
  end.

(** The options bag with the given bounds and rotation flag only. *)
Definition ref_options (min max rotate : value)
  : Options (value -> option string) :=
  {| integer := VUndefined; step := VUndefined; min := min; max := max;
     rotate := rotate; describeValue := None |}.

(** ** Comparisons of binary64 numbers *)

Lemma SFcompare_antisym (a b : spec_float) :
  SFcompare b a = option_map CompOpp (SFcompare a b).
Proof.
  destruct a as [sa | sa | | sa ma ea], b as [sb | sb | | sb mb eb];
    try reflexivity;
    try (destruct sa; reflexivity);
    try (destruct sb; reflexivity);
    try (destruct sa, sb; reflexivity).
  cbn [SFcompare option_map].
  destruct sa, sb; try reflexivity;
    rewrite (Z.compare_antisym ea eb);
    destruct (ea ?= eb)%Z; cbn [CompOpp]; try reflexivity;
    rewrite (Pos.compare_cont_antisym ma mb Eq);
    cbn [CompOpp]; try reflexivity.
Qed.

Lemma ltb_asym (x y : float) : PrimFloat.ltb x y = true -> PrimFloat.ltb y x = false.
Proof.
  rewrite !ltb_spec. unfold SFltb.
  rewrite (SFcompare_antisym (Prim2SF x) (Prim2SF y)).
  destruct (SFcompare (Prim2SF x) (Prim2SF y)) as [[ | | ] | ]; cbn; congruence.
Qed.

Lemma leb_not_ltb (x y : float) : PrimFloat.leb x y = true -> PrimFloat.ltb y x = false.
Proof.
  rewrite leb_spec, ltb_spec. unfold SFleb, SFltb.
  rewrite (SFcompare_antisym (Prim2SF x) (Prim2SF y)).
  destruct (SFcompare (Prim2SF x) (Prim2SF y)) as [[ | | ] | ]; cbn; congruence.
Qed.

Lemma ltb_not_leb (x y : float) : PrimFloat.ltb x y = true -> PrimFloat.leb y x = false.
Proof.
  rewrite leb_spec, ltb_spec. unfold SFleb, SFltb.
  rewrite (SFcompare_antisym (Prim2SF x) (Prim2SF y)).
  destruct (SFcompare (Prim2SF x) (Prim2SF y)) as [[ | | ] | ]; cbn; congruence.
Qed.

Lemma eqb_not_ltb (x y : float) : PrimFloat.eqb x y = true -> PrimFloat.ltb y x = false.
Proof.
  rewrite eqb_spec, ltb_spec. unfold SFeqb, SFltb.
  rewrite (SFcompare_antisym (Prim2SF x) (Prim2SF y)).
  destruct (SFcompare (Prim2SF x) (Prim2SF y)) as [[ | | ] | ]; cbn; congruence.
Qed.

Lemma eqb_leb (x y : float) : PrimFloat.eqb x y = true -> PrimFloat.leb y x = true.
Proof.
  rewrite eqb_spec, leb_spec. unfold SFeqb, SFleb.
  rewrite (SFcompare_antisym (Prim2SF x) (Prim2SF y)).
  destruct (SFcompare (Prim2SF x) (Prim2SF y)) as [[ | | ] | ]; cbn; congruence.
Qed.

Lemma eqb_not_nan (x y : float) : PrimFloat.eqb x y = true -> PrimFloat.is_nan x = false.
Proof.
  unfold PrimFloat.is_nan. rewrite !eqb_spec. unfold SFeqb.
  destruct (Prim2SF x) as [sa | sa | | sa ma ea]; cbn; try congruence.
  - destruct (Prim2SF y); cbn; try congruence.
    all: destruct sa; try destruct s; cbn; congruence.
  - intros _. now rewrite Z.compare_refl, Pos.compare_cont_refl; destruct sa.
Qed.

Lemma SFcompare_Eq_finite (a : spec_float) (s : bool) (m : positive) (e : Z) :
  SFcompare a (S754_finite s m e) = Some Eq -> a = S754_finite s m e.
Proof.
  destruct a as [sa | sa | | sa ma ea]; cbn.
  - destruct s; discriminate.
  - destruct sa; discriminate.
  - discriminate.
  - destruct sa, s; try discriminate;
      destruct (ea ?= e)%Z eqn:He; try discriminate;
      apply Z.compare_eq in He; subst ea; intros Hm.
    + assert (Hc : (ma ?= m)%positive = Eq)
        by (unfold Pos.compare; destruct (Pos.compare_cont Eq ma m);
            cbn in Hm; congruence).
      apply Pos.compare_eq in Hc. now subst.
    + assert (Hc : (ma ?= m)%positive = Eq)
        by (unfold Pos.compare; congruence).
      apply Pos.compare_eq in Hc. now subst.
Qed.

(** A number equal to a finite non-zero number is that number. *)
Lemma eqb_finite_eq (x c : float) (s : bool) (m : positive) (e : Z) :
  Prim2SF c = S754_finite s m e -> PrimFloat.eqb x c = true -> x = c.
Proof.
  intros Hc. rewrite eqb_spec. unfold SFeqb. rewrite Hc.
  destruct (SFcompare (Prim2SF x) (S754_finite s m e)) as [[ | | ] | ] eqn:Hx;
    try discriminate.
  intros _. apply SFcompare_Eq_finite in Hx.
  apply Prim2SF_inj. congruence.
Qed.

Lemma leb_refl_of_leb (x y : float) :
  PrimFloat.leb x y = true -> PrimFloat.leb x x = true.
Proof.
  rewrite !leb_spec. unfold SFleb.
  destruct (Prim2SF x) as [sa | sa | | sa ma ea]; cbn.
  - reflexivity.
  - destruct sa; reflexivity.
  - discriminate.
  - intros _. rewrite Z.compare_refl, Pos.compare_cont_refl.
    destruct sa; reflexivity.
Qed.

Lemma strict_neq_null (v : value) :
  strict_neq v VNull = true <-> v <> VNull.
Proof.
  destruct v; cbn; split; try congruence; try discriminate; reflexivity.
Qed.

(** ** Properties of the class *)

Section Properties.
Context `{E : Env}.

(** *** Option accessors *)

(** [x || true] is truthy whatever [x] is. *)
Lemma js_or_true_truthy (x : value) : truthy (js_or x (VBool true)) = true.
Proof.
  unfold js_or. destruct (truthy x) eqn:Hx; [ exact Hx | reflexivity ].
Qed.

(** The constructor enables rotation only with both bounds present. *)
Lemma constructor_rotate_bounds (name : string) (spec : Spec) :
  truthy (isRotate (constructor name spec)) = true ->
  getMin (constructor name spec) <> VNull /\
  getMax (constructor name spec) <> VNull.
Proof.
  unfold isRotate, getMin, getMax, constructor; cbn.
  set (lo := js_or _ VNull). set (hi := js_or _ VNull).
  unfold js_and. rewrite js_or_true_truthy.
  destruct lo; cbn; try discriminate;
    destruct hi; cbn; try discriminate; split; discriminate.
Qed.

(** [setRotate] enables rotation only with both bounds present. *)
Lemma setRotate_bounds (rotate : value) (f : field) :
  truthy (isRotate (fst (setRotate rotate f))) = true ->
  getMin (fst (setRotate rotate f)) <> VNull /\
  getMax (fst (setRotate rotate f)) <> VNull.
Proof.
  unfold isRotate, getMin, getMax, setRotate; cbn.
  unfold js_and.
  destruct (truthy rotate) eqn:Hr; cbn.
  - destruct (_min f); cbn; try discriminate;
      destruct (_max f); cbn; try discriminate; split; discriminate.
  - rewrite Hr; cbn. rewrite Hr. discriminate.
Qed.

(** The setters of the bounds leave [_rotate] as it is. *)
Lemma setMin_keeps_rotate (min : value) (f : field) :
  isRotate (fst (setMin min f)) = isRotate f /\ getMin (fst (setMin min f)) = min.
Proof.
  unfold setMin. destruct (Field_revalidateValue _). split; reflexivity.
Qed.

Lemma setMax_keeps_rotate (max : value) (f : field) :
  isRotate (fst (setMax max f)) = isRotate f /\ getMax (fst (setMax max f)) = max.
Proof.
  unfold setMax. destruct (Field_revalidateValue _). split; reflexivity.
Qed.

(** C1, at the failing input: a field constructed with [min: 1] and
    [max: 10], then [setRotate(true)] and [setMin(null)].  Afterwards
    [isRotate()] is still [true] while [getMin()] is [null]: [setMin]
    stores the bound and does not touch [_rotate]. *)
Theorem C1_rotate_outlives_cleared_minimum (name : string) (fs : FieldSpec) :
  let o := {| integer := VUndefined; step := VUndefined; min := VNum 1;
              max := VNum 10; rotate := VUndefined; describeValue := None |} in
  let f := perform_all [CallSetRotate (VBool true); CallSetMin VNull]
             (constructor name {| field_spec := fs; options := Some o |}) in
  isRotate f = VBool true /\ getMin f = VNull.
Proof.
  cbn -[setMin].
  match goal with |- context [setMin VNull ?g] =>
    destruct (setMin_keeps_rotate VNull g) as [Hr Hm]; rewrite Hr, Hm end.
  split; reflexivity.
Qed.

(** C2, at the failing inputs: the constructor reads every option through
    [||], so a supplied falsy value gives way to the default.  With
    [step: 0] and [min: 0] the field has step [1] and no minimum; with
    [rotate: false] and both bounds given, [isRotate()] is [true]. *)
Theorem C2_falsy_options_give_way_to_defaults (name : string) (fs : FieldSpec) :
  let o1 := {| integer := VUndefined; step := VNum 0; min := VNum 0;
               max := VNum 10; rotate := VUndefined; describeValue := None |} in
  let o2 := {| integer := VUndefined; step := VUndefined; min := VNum 1;
               max := VNum 10; rotate := VBool false; describeValue := None |} in
  let f1 := constructor name {| field_spec := fs; options := Some o1 |} in
  let f2 := constructor name {| field_spec := fs; options := Some o2 |} in
  getStep f1 = VNum 1 /\ getMin f1 = VNull /\ isRotate f2 = VBool true.
Proof.
  repeat split; reflexivity.
Qed.

(** The constructor does store the supplied values that are truthy. *)
Lemma constructor_stores_truthy (name : string) (fs : FieldSpec)
  (o : Options Callback) :
  let f := constructor name {| field_spec := fs; options := Some o |} in
  (truthy (integer o) = true -> isInteger f = integer o) /\
  (truthy (step o) = true -> getStep f = step o) /\
  (truthy (min o) = true -> getMin f = min o) /\
  (truthy (max o) = true -> getMax f = max o).
Proof.
  cbn. unfold isInteger, getStep, getMin, getMax, js_or; cbn.
  repeat split; intros ->; reflexivity.
Qed.

(** *** Fluent interface *)

Lemma setStep_returns_this (step : value) (f : field) :
  snd (setStep step f) = RetThis.
Proof. reflexivity. Qed.

Lemma setRotate_returns_this (rotate : value) (f : field) :
  snd (setRotate rotate f) = RetThis.
Proof. reflexivity. Qed.

(** C8, at the failing input: [setNeedsValueDescriptionUpdate] has no
    [return] statement, so on every field it returns [undefined] and not
    the receiver. *)
Theorem C8_setNeedsValueDescriptionUpdate_returns_undefined (f : field) :
  snd (setNeedsValueDescriptionUpdate f) = RetValue VUndefined /\
  snd (setNeedsValueDescriptionUpdate f) <> RetThis.
Proof.
  split; [ reflexivity | discriminate ].
Qed.

(** *** Value description *)

(** C10: [getValueDescription()] is [null] when the current value is
    invalid, whatever the callback, and when no callback is configured;
    with a valid value and a callback it is the result of the callback on
    the current value and the field. *)
Theorem C10_getValueDescription (f : field) :
  (Field_isValid (base f) = false -> getValueDescription f = None) /\
  (_describeValueCallback f = None -> getValueDescription f = None) /\
  (forall describe : Callback,
     Field_isValid (base f) = true ->
     _describeValueCallback f = Some describe ->
     getValueDescription f = invoke describe (Field_getValue (base f)) f).
Proof.
  unfold getValueDescription. repeat split.
  - intros ->. reflexivity.
  - intros ->. now destruct (negb _).
  - intros describe -> ->. reflexivity.
Qed.

(** *** Validation *)

Lemma finite_is_numeric (v : float) :
  PrimFloat.is_finite v = true ->
  (isNaN (VNum v) || negb (isFinite (VNum v))) = false.
Proof.
  unfold isNaN, isFinite, ToNumber, PrimFloat.is_finite.
  intros H. rewrite H. cbn.
  destruct (PrimFloat.is_nan v); [ discriminate H | reflexivity ].
Qed.

Lemma validateValue_too_small (f : field) (c : value) :
  filterValue f c = c ->
  (isNaN c || negb (isFinite c)) = false ->
  strict_neq (_min f) VNull = true ->
  js_lt c (_min f) = true ->
  validateValue f c =
  Failed {| key := "numberTooSmall";
            message := [Txt "The value must be greater than or equal to ";
                        Interp (_min f)] |}.
Proof.
  intros Hfilter Hnum Hset Hlt. unfold validateValue.
  rewrite Hfilter, Hnum, Hset, Hlt. reflexivity.
Qed.

Lemma validateValue_too_large (f : field) (c : value) :
  filterValue f c = c ->
  (isNaN c || negb (isFinite c)) = false ->
  (strict_neq (_min f) VNull && js_lt c (_min f)) = false ->
  strict_neq (_max f) VNull = true ->
  js_ge c (_max f) = true ->
  validateValue f c =
  Failed {| key := "numberTooLarge";
            message := [Txt "The value must be less than "; Interp (_max f)] |}.
Proof.
  intros Hfilter Hnum Hmin Hset Hge. unfold validateValue.
  rewrite Hfilter, Hnum, Hmin, Hset, Hge. reflexivity.
Qed.

Lemma validateValue_within (f : field) (c : value) :
  filterValue f c = c ->
  (isNaN c || negb (isFinite c)) = false ->
  (strict_neq (_min f) VNull && js_lt c (_min f)) = false ->
  (strict_neq (_max f) VNull && js_ge c (_max f)) = false ->
  validateValue f c = Field_validateValue f c.
Proof.
  intros Hfilter Hnum Hmin Hmax. unfold validateValue.
  rewrite Hfilter, Hnum, Hmin, Hmax. reflexivity.
Qed.

(** C3, as amended: for a finite number [v] that filtering leaves
    unchanged, a set minimum above [v] gives [numberTooSmall]; a set maximum
    at or below [v] gives [numberTooLarge] unless [v] is also below a set
    minimum (the minimum is checked first); with [v] inside the bounds the
    result is the verdict of the base class, neither failure being raised;
    and a value that filters to a non-finite number is [numberNotNumeric]
    whatever the bounds are. *)
Theorem C3_validateValue_bounds (f : field) (v : float)
  (Hfinite : PrimFloat.is_finite v = true)
  (Hfilter : filterValue f (VNum v) = VNum v) :
  (strict_neq (_min f) VNull = true -> js_lt (VNum v) (_min f) = true ->
   failure_key (validateValue f (VNum v)) = Some "numberTooSmall") /\
  (strict_neq (_max f) VNull = true -> js_ge (VNum v) (_max f) = true ->
   (strict_neq (_min f) VNull && js_lt (VNum v) (_min f)) = false ->
   failure_key (validateValue f (VNum v)) = Some "numberTooLarge") /\
  ((_min f = VNull \/ js_ge (VNum v) (_min f) = true) ->
   (_max f = VNull \/ js_lt (VNum v) (_max f) = true) ->
   validateValue f (VNum v) = Field_validateValue f (VNum v)) /\
  (forall raw : value,
     (isNaN (filterValue f raw) || negb (isFinite (filterValue f raw))) = true ->
     failure_key (validateValue f raw) = Some "numberNotNumeric").
Proof.
  pose proof (finite_is_numeric v Hfinite) as Hnum.
  split; [ | split; [ | split ] ].
  - intros Hset Hlt.
    now rewrite validateValue_too_small.
  - intros Hset Hge Hmin.
    now rewrite validateValue_too_large.
  - intros Hmin Hmax. apply validateValue_within; try assumption.
    + destruct Hmin as [-> | Hge]; [ reflexivity | ].
      unfold js_ge in Hge. unfold js_lt.
      rewrite (leb_not_ltb _ _ Hge). apply andb_false_r.
    + destruct Hmax as [-> | Hlt]; [ reflexivity | ].
      unfold js_lt in Hlt. unfold js_ge.
      rewrite (ltb_not_leb _ _ Hlt). apply andb_false_r.
  - intros raw Hraw. unfold validateValue. rewrite Hraw. reflexivity.
Qed.

(** *** Randomisation *)

(** C9: when the base randomisation yields [null], the result is
    [random.nextInteger(min, Math.ceil(max) - 1)] in integer mode with both
    bounds set, [random.nextFloat(min, max)] in float mode with both bounds
    set, and [null] when a bound is [null].  With minimum 0 and maximum 5
    in integer mode the request is for the inclusive range from 0 to 4, so
    a generator that honours its range returns a number from 0 to 4 and
    never 5. *)
Theorem C9_randomizeValue (f : field) (random : Random)
  (Hbase : fst (Field_randomizeValue f random) = VNull) :
  let random' := snd (Field_randomizeValue f random) in
  (getMin f <> VNull -> getMax f <> VNull -> truthy (isInteger f) = true ->
   randomizeValue f random =
   nextInteger random' (getMin f) (js_sub (Math_ceil (getMax f)) (VNum 1))) /\
  (getMin f <> VNull -> getMax f <> VNull -> truthy (isInteger f) = false ->
   randomizeValue f random = nextFloat random' (getMin f) (getMax f)) /\
  (getMin f = VNull \/ getMax f = VNull ->
   randomizeValue f random = (VNull, random')) /\
  (getMin f = VNum 0 -> getMax f = VNum 5 -> truthy (isInteger f) = true ->
   randomizeValue f random = nextInteger random' (VNum 0) (VNum 4) /\
   ((forall (r : Random) (a b : value), js_ge b a = true ->
       js_ge (fst (nextInteger r a b)) a = true /\
       js_ge b (fst (nextInteger r a b)) = true) ->
    js_ge (fst (randomizeValue f random)) (VNum 0) = true /\
    js_ge (VNum 4) (fst (randomizeValue f random)) = true /\
    strict_eq (fst (randomizeValue f random)) (VNum 5) = false)).
Proof.
  intros random'. subst random'.
  unfold randomizeValue.
  destruct (Field_randomizeValue f random) as [v r]. cbn in Hbase. subst v.
  cbn [fst snd strict_neq strict_eq negb].
  assert (Hint : getMin f <> VNull -> getMax f <> VNull ->
                 (strict_neq (getMin f) VNull && strict_neq (getMax f) VNull) = true).
  { intros H1 H2. apply strict_neq_null in H1, H2. now rewrite H1, H2. }
  split; [ | split; [ | split ] ].
  - intros H1 H2 Hi. now rewrite (Hint H1 H2), Hi.
  - intros H1 H2 Hi. now rewrite (Hint H1 H2), Hi.
  - intros [H | H]; rewrite H; [ reflexivity | ].
    now rewrite andb_false_r.
  - intros Hlo Hhi Hi. rewrite Hlo, Hhi, Hi.
    cbn [strict_neq strict_eq negb andb].
    change (js_sub (Math_ceil (VNum 5)) (VNum 1)) with (VNum 4).
    split; [ reflexivity | ].
    intros Hgen.
    destruct (Hgen r (VNum 0) (VNum 4) eq_refl) as [Hge Hle].
    split; [ exact Hge | split; [ exact Hle | ] ].
    destruct (fst (nextInteger r (VNum 0) (VNum 4))) as [ | | b | x];
      try reflexivity.
    cbn [strict_eq]. destruct (PrimFloat.eqb x 5) eqn:Hx; [ | reflexivity ].
    eapply eqb_finite_eq in Hx; [ | vm_compute; reflexivity ]. subst x.
    discriminate Hle.
Qed.

(** *** The stepping loop *)

(** The counter [tries] of the source is a double: it counts exactly up to
    [2^53] and stays there, which is why the counts are kept in [nat]. *)
Remark double_counter_stays_below :
  PrimFloat.ltb (9007199254740992 + 1) 9007199254740994 = true /\
  PrimFloat.ltb (9007199254740992 + 1) infinity = true.
Proof. split; reflexivity. Qed.

Remark double_counter_saturates :
  PrimFloat.eqb (9007199254740991 + 1) 9007199254740992 = true /\
  PrimFloat.eqb (9007199254740992 + 1) 9007199254740992 = true.
Proof. split; reflexivity. Qed.

Lemma while_found (fuel : nat) (f : field) (step : value) (maxTries : nat)
  (l : locals) :
  valueFound l = true -> while (S fuel) f step maxTries l = Some l.
Proof.
  intros H. cbn [while]. unfold loop_cond. rewrite H. reflexivity.
Qed.

Lemma while_stop (fuel : nat) (f : field) (step : value) (maxTries : nat)
  (l : locals) :
  valueFound l = false ->
  ((tries l <? maxTries)%nat && within_limits f step (value_ l)) = false ->
  while (S fuel) f step maxTries l = Some (count_try l).
Proof.
  intros H Hc. cbn [while]. unfold loop_cond. rewrite H, Hc. reflexivity.
Qed.

Lemma while_iter (fuel : nat) (f : field) (step : value) (maxTries : nat)
  (l : locals) :
  valueFound l = false ->
  (tries l <? maxTries)%nat = true ->
  within_limits f step (value_ l) = true ->
  while (S fuel) f step maxTries l =
  while fuel f step maxTries (loop_body f step (count_try l)).
Proof.
  intros H Ht Hw. cbn [while]. unfold loop_cond. rewrite H, Ht, Hw.
  reflexivity.
Qed.

(** With rotation enabled the limits stop nothing. *)
Lemma within_limits_rotate (f : field) (step v : value) :
  truthy (_rotate f) = true -> within_limits f step v = true.
Proof.
  intros H. unfold within_limits. rewrite H. reflexivity.
Qed.

(** The loop ends within [maxTries + 1] evaluations of its condition, and
    it validates at most [maxTries] candidates. *)
Lemma while_enough_fuel (f : field) (step : value) (maxTries : nat) :
  forall (fuel : nat) (l : locals),
    maxTries - tries l < fuel ->
    exists l' : locals,
      while fuel f step maxTries l = Some l' /\
      List.length (validated l') <=
      List.length (validated l) + (maxTries - tries l).
Proof.
  induction fuel as [ | fuel IH]; intros l Hfuel; [ lia | ].
  destruct (valueFound l) eqn:Hfound.
  - exists l. rewrite while_found by assumption. split; [ reflexivity | lia ].
  - destruct ((tries l <? maxTries)%nat && within_limits f step (value_ l))
      eqn:Hc.
    + apply andb_true_iff in Hc. destruct Hc as [Ht Hw].
      rewrite while_iter by assumption.
      apply Nat.ltb_lt in Ht.
      destruct (IH (loop_body f step (count_try l))) as [l' [Hrun Hlen]].
      { cbn. lia. }
      exists l'. split; [ exact Hrun | ]. cbn in Hlen. lia.
    + exists (count_try l). rewrite while_stop by assumption.
      split; [ reflexivity | cbn; lia ].
Qed.

(** More fuel does not change the outcome. *)
Lemma while_more_fuel (f : field) (step : value) (maxTries : nat) :
  forall (fuel : nat) (l l' : locals),
    while fuel f step maxTries l = Some l' ->
    forall fuel' : nat, fuel <= fuel' ->
      while fuel' f step maxTries l = Some l'.
Proof.
  induction fuel as [ | fuel IH]; intros l l' Hrun fuel' Hle;
    [ discriminate Hrun | ].
  destruct fuel' as [ | fuel']; [ lia | ].
  cbn [while] in *.
  destruct (loop_cond f step maxTries l) as [[ | ] l1].
  - apply IH with (fuel' := fuel') in Hrun; [ exact Hrun | lia ].
  - exact Hrun.
Qed.

(** [valueFound] is the verdict on the newest candidate. *)
Definition found_is_verdict (f : field) (l : locals) : Prop :=
  valueFound l =
  match validated l with
  | [] => false
  | v :: _ => is_true (validateValue f v)
  end /\
  (valueFound l = true -> is_true (validateValue f (value_ l)) = true).

Lemma while_found_is_verdict (f : field) (step : value) (maxTries : nat) :
  forall (fuel : nat) (l l' : locals),
    found_is_verdict f l ->
    while fuel f step maxTries l = Some l' ->
    found_is_verdict f l'.
Proof.
  induction fuel as [ | fuel IH]; intros l l' Hinv Hrun;
    [ discriminate Hrun | ].
  cbn [while] in Hrun. unfold loop_cond in Hrun.
  destruct (valueFound l) eqn:Hfound.
  - injection Hrun as <-. exact Hinv.
  - destruct ((tries l <? maxTries)%nat && within_limits f step (value_ l)).
    + apply IH in Hrun; [ exact Hrun | ].
      split; cbn; [ reflexivity | tauto ].
    + injection Hrun as <-. destruct Hinv as [H1 H2].
      split; cbn; [ exact H1 | rewrite Hfound; discriminate ].
Qed.

(** When the loop ends without a valid candidate, it has made every one of
    its [maxTries] attempts unless the limits stopped it. *)
Lemma while_exhausts (f : field) (step : value) (maxTries : nat) :
  forall (fuel : nat) (l l' : locals),
    valueFound l = false ->
    tries l <= maxTries ->
    while fuel f step maxTries l = Some l' ->
    valueFound l' = false ->
    List.length (validated l') =
    List.length (validated l) + (maxTries - tries l) \/
    within_limits f step (value_ l') = false.
Proof.
  induction fuel as [ | fuel IH]; intros l l' Hfound Htries Hrun Hend;
    [ discriminate Hrun | ].
  cbn [while] in Hrun. unfold loop_cond in Hrun. rewrite Hfound in Hrun.
  destruct (tries l <? maxTries)%nat eqn:Ht; cbn [andb] in Hrun.
  - apply Nat.ltb_lt in Ht.
    destruct (within_limits f step (value_ l)) eqn:Hw.
    + set (l1 := loop_body f step (count_try l)) in *.
      destruct (valueFound l1) eqn:Hfound1.
      * destruct fuel as [ | fuel]; [ discriminate Hrun | ].
        rewrite while_found in Hrun by assumption.
        injection Hrun as <-. congruence.
      * assert (Htries1 : tries l1 <= maxTries) by (subst l1; cbn; lia).
        destruct (IH l1 l' Hfound1 Htries1 Hrun Hend) as [Hlen | Hlim];
          [ left | right; exact Hlim ].
        subst l1; cbn in Hlen. lia.
    + injection Hrun as <-. right. exact Hw.
  - injection Hrun as <-. left. apply Nat.ltb_ge in Ht. cbn. lia.
Qed.

Lemma stepValue_init_verdict (f : field) :
  found_is_verdict f (stepValue_init f).
Proof.
  split; cbn; [ reflexivity | discriminate ].
Qed.

(** A [null] from [stepValue] commits nothing: [stepUp] and [stepDown]
    return the receiver with its state as it was. *)
Lemma step_null_commits_nothing (f : field) :
  (stepValue f (_step f) default_maxTries = VNull -> stepUp f = (f, RetThis)) /\
  (stepValue f (js_neg (_step f)) default_maxTries = VNull ->
   stepDown f = (f, RetThis)).
Proof.
  unfold stepUp, stepDown. split; intros ->; reflexivity.
Qed.

(** C5, as amended: for every state, every step and every whole count
    [maxTries] up to [2^53], the loop of [stepValue] ends (within
    [maxTries + 1] evaluations of its condition, and with the same outcome
    on any larger budget) after at most [maxTries] step-and-validate
    attempts.  When no candidate of the search
    validates, the result is [null]; the attempts are then exactly
    [maxTries] if rotation is enabled, and otherwise either exactly
    [maxTries] or fewer because the limits of the non-rotating field
    stopped the search.  [stepValue] computes a value from the state and
    writes nothing, and on a [null] result [stepUp] and [stepDown] leave
    the field as it was. *)
Theorem C5_stepValue_bounded_search (f : field) (step : value)
  (maxTries : nat) :
  whole_count maxTries ->
  (exists l : locals,
     stepValue_run f step maxTries = Some l /\
     (forall fuel : nat, S maxTries <= fuel ->
        while fuel f step maxTries (stepValue_init f) = Some l) /\
     stepValue_attempts f step maxTries = List.length (validated l) /\
     stepValue_attempts f step maxTries <= maxTries /\
     ((forall v : value, In v (validated l) ->
         is_true (validateValue f v) = false) ->
      stepValue f step maxTries = VNull /\
      (truthy (_rotate f) = true ->
       stepValue_attempts f step maxTries = maxTries) /\
      (stepValue_attempts f step maxTries = maxTries \/
       (truthy (_rotate f) = false /\
        within_limits f step (value_ l) = false)))) /\
  (stepValue f (_step f) default_maxTries = VNull -> stepUp f = (f, RetThis)) /\
  (stepValue f (js_neg (_step f)) default_maxTries = VNull ->
   stepDown f = (f, RetThis)).
Proof.
  intros _.
  split; [ | exact (step_null_commits_nothing f) ].
  destruct (while_enough_fuel f step maxTries (S maxTries) (stepValue_init f))
    as [l [Hrun Hlen]]; [ cbn; lia | ].
  cbn in Hlen. rewrite Nat.sub_0_r in Hlen.
  exists l. unfold stepValue, stepValue_attempts, stepValue_run.
  rewrite Hrun.
  split; [ reflexivity | ].
  split; [ intros fuel Hfuel; exact (while_more_fuel _ _ _ _ _ _ Hrun _ Hfuel) | ].
  split; [ reflexivity | ].
  split; [ exact Hlen | ].
  intros Hnone.
  assert (Hend : valueFound l = false).
  { destruct (while_found_is_verdict _ _ _ _ _ _ (stepValue_init_verdict f) Hrun)
      as [Hv _].
    rewrite Hv. destruct (validated l) as [ | v vs]; [ reflexivity | ].
    apply Hnone. left. reflexivity. }
  rewrite Hend.
  destruct (while_exhausts f step maxTries (S maxTries) (stepValue_init f) l
              eq_refl (Nat.le_0_l _) Hrun Hend)
    as [Hexact | Hlim].
  - cbn in Hexact. rewrite Nat.sub_0_r in Hexact.
    split; [ reflexivity | ]. split; [ intros _; exact Hexact | ].
    left. exact Hexact.
  - split; [ reflexivity | ]. split.
    + intros Hrot. rewrite within_limits_rotate in Hlim by assumption.
      discriminate Hlim.
    + right. split; [ | exact Hlim ].
      destruct (truthy (_rotate f)) eqn:Hrot; [ | reflexivity ].
      rewrite within_limits_rotate in Hlim by assumption.
      discriminate Hlim.
Qed.

(** C6: with rotation disabled, a field whose current value is its minimum
    answers a downward [stepValue] with [null] and no attempt at all, and a
    field whose current value is its maximum does so for an upward one. *)
Theorem C6_no_rotation_boundary_guard (f : field) (step : value)
  (maxTries : nat)
  (Hrotate : truthy (_rotate f) = false) :
  (strict_eq (Field_getValue (base f)) (_min f) = true ->
   js_lt step (VNum 0) = true ->
   stepValue f step maxTries = VNull /\
   stepValue_attempts f step maxTries = 0) /\
  (strict_eq (Field_getValue (base f)) (_max f) = true ->
   js_gt step (VNum 0) = true ->
   stepValue f step maxTries = VNull /\
   stepValue_attempts f step maxTries = 0).
Proof.
  unfold stepValue, stepValue_attempts, stepValue_run.
  split; intros Hat Hstep.
  - rewrite while_stop; [ split; reflexivity | reflexivity | ].
    unfold within_limits, strict_neq. cbn [stepValue_init value_ tries].
    rewrite Hrotate, Hat.
    unfold js_lt in Hstep. unfold js_gt. rewrite (ltb_asym _ _ Hstep).
    cbn. apply andb_false_r.
  - rewrite while_stop; [ split; reflexivity | reflexivity | ].
    unfold within_limits, strict_neq. cbn [stepValue_init value_ tries].
    rewrite Hrotate, Hat.
    unfold js_gt in Hstep. unfold js_lt. rewrite (ltb_asym _ _ Hstep).
    cbn. rewrite andb_false_r. apply andb_false_r.
Qed.

(** Every value [stepValue] returns, other than [null], passed
    [validateValue]. *)
Lemma stepValue_result_valid (f : field) (step : value) (maxTries : nat) :
  stepValue f step maxTries <> VNull ->
  validateValue f (stepValue f step maxTries) = Valid.
Proof.
  unfold stepValue, stepValue_run.
  destruct (while (S maxTries) f step maxTries (stepValue_init f))
    as [l | ] eqn:Hrun; [ | congruence ].
  destruct (while_found_is_verdict _ _ _ _ _ _ (stepValue_init_verdict f) Hrun)
    as [_ Hv].
  destruct (valueFound l); [ | congruence ].
  intros _. specialize (Hv eq_refl).
  destruct (validateValue f (value_ l)); [ reflexivity | | ]; discriminate Hv.
Qed.

(** A candidate that does not exceed the maximum is not rotated to the
    minimum. *)
Lemma candidate_no_upward_wrap (f : field) (step v : value) :
  js_gt (js_add v step) (_max f) = false ->
  candidate f step v =
  if truthy (_rotate f) && js_lt (js_add v step) (_min f)
  then js_add (_max f) step else js_add v step.
Proof.
  intros H. unfold candidate. rewrite H, andb_false_r. cbn [andb].
  destruct (truthy (_rotate f)), (js_lt (js_add v step) (_min f)); reflexivity.
Qed.

(** With rotation enabled, a candidate that exceeds the maximum is rotated
    to the minimum. *)
Lemma candidate_upward_wrap (f : field) (step v : value) :
  truthy (_rotate f) = true ->
  js_gt (js_add v step) (_max f) = true ->
  candidate f step v = _min f.
Proof.
  intros Hr H. unfold candidate. rewrite Hr, H. reflexivity.
Qed.

(** A finite number strictly equal to the maximum does not exceed it, is
    not below it, and the maximum is set. *)
Lemma strict_eq_max (x : float) (m : value) :
  strict_eq (VNum x) m = true ->
  isFinite (VNum x) = true ->
  js_gt (VNum x) m = false /\ js_ge (VNum x) m = true /\
  strict_neq m VNull = true /\
  (isNaN (VNum x) || negb (isFinite (VNum x))) = false.
Proof.
  intros Heq Hfin.
  destruct m as [ | | b | y]; try discriminate Heq.
  cbn in Heq. unfold js_gt, js_ge, ToNumber.
  rewrite (eqb_not_ltb _ _ Heq), (eqb_leb _ _ Heq).
  repeat split; try reflexivity.
  apply finite_is_numeric. exact Hfin.
Qed.

(** The locals after one iteration that starts from [l]. *)
Lemma loop_body_count_try (f : field) (step : value) (l : locals) :
  loop_body f step (count_try l) =
  {| value_ := candidate f step (value_ l);
     tries := S (tries l);
     valueFound := is_true (validateValue f (candidate f step (value_ l)));
     validated := candidate f step (value_ l) :: validated l |}.
Proof. reflexivity. Qed.

(** C7, as amended: a candidate that does not strictly exceed the maximum
    is never rotated up to the minimum, and every value [stepValue] returns
    other than [null] validates.  With rotation enabled and a first
    candidate exactly equal to the maximum, when that candidate is a finite
    number that filtering leaves unchanged and that is not below the
    minimum, it is kept as it is, is rejected as [numberTooLarge] and uses
    up one try, so fewer than two tries give [null]; when one more step
    strictly exceeds the maximum and the minimum validates, any
    [maxTries >= 2] returns the minimum, on the second attempt. *)
Theorem C7_upward_wrap_is_strict (f : field) (step : value) :
  (forall v : value,
     js_gt (js_add v step) (_max f) = false ->
     candidate f step v =
     if truthy (_rotate f) && js_lt (js_add v step) (_min f)
     then js_add (_max f) step else js_add v step) /\
  (forall maxTries : nat,
     stepValue f step maxTries <> VNull ->
     validateValue f (stepValue f step maxTries) = Valid) /\
  (let c := js_add (Field_getValue (base f)) step in
   truthy (_rotate f) = true ->
   strict_eq c (_max f) = true ->
   isFinite c = true ->
   filterValue f c = c ->
   js_lt c (_min f) = false ->
   candidate f step (Field_getValue (base f)) = c /\
   failure_key (validateValue f c) = Some "numberTooLarge" /\
   (forall maxTries : nat, maxTries < 2 -> stepValue f step maxTries = VNull) /\
   stepValue_attempts f step 1 = 1 /\
   (js_gt (js_add c step) (_max f) = true ->
    is_true (validateValue f (_min f)) = true ->
    forall maxTries : nat, 2 <= maxTries ->
      stepValue f step maxTries = _min f /\
      stepValue_attempts f step maxTries = 2)).
Proof.
  split; [ intros v; apply candidate_no_upward_wrap | ].
  split; [ intros maxTries; apply stepValue_result_valid | ].
  intros c Hrotate Hat Hfinite Hfilter Hrange.
  destruct (strict_eq_max _ _ Hat Hfinite) as [Hgt [Hge [Hset Hnum]]].
  fold c in Hgt, Hge, Hnum.
  assert (Hc : candidate f step (Field_getValue (base f)) = c).
  { rewrite candidate_no_upward_wrap by exact Hgt.
    fold c. rewrite Hrange, andb_false_r. reflexivity. }
  assert (Hlarge : validateValue f c =
                   Failed {| key := "numberTooLarge";
                             message := [Txt "The value must be less than ";
                                         Interp (_max f)] |}).
  { apply validateValue_too_large; try assumption.
    rewrite Hrange. apply andb_false_r. }
  split; [ exact Hc | ].
  split; [ rewrite Hlarge; reflexivity | ].
  assert (Hlim : forall v, within_limits f step v = true)
    by (intros v; apply within_limits_rotate; exact Hrotate).
  split; [ | split ].
  - intros maxTries Hlt. unfold stepValue, stepValue_run.
    destruct maxTries as [ | [ | maxTries]]; [ | | lia ].
    + rewrite while_stop; reflexivity.
    + rewrite while_iter by (try reflexivity; apply Hlim).
      rewrite loop_body_count_try.
      cbn [stepValue_init value_ tries validated]. rewrite Hc, Hlarge.
      rewrite while_stop; reflexivity.
  - unfold stepValue_attempts, stepValue_run.
    rewrite while_iter by (try reflexivity; apply Hlim).
    rewrite loop_body_count_try.
    cbn [stepValue_init value_ tries validated]. rewrite Hc, Hlarge.
    rewrite while_stop; reflexivity.
  - intros Hup Hvalid maxTries Hle.
    destruct maxTries as [ | [ | maxTries]]; [ lia | lia | ].
    unfold stepValue, stepValue_attempts, stepValue_run.
    rewrite while_iter by (try reflexivity; apply Hlim).
    rewrite loop_body_count_try.
    cbn [stepValue_init value_ tries validated]. rewrite Hc, Hlarge.
    rewrite while_iter by (try reflexivity; apply Hlim).
    rewrite loop_body_count_try. cbn [value_ tries validated].
    rewrite (candidate_upward_wrap f step c Hrotate Hup), Hvalid.
    rewrite while_found by reflexivity.
    split; reflexivity.
Qed.

(** C4: minimum 0, maximum 10, step size 1, rotation enabled, filtering
    leaving 0, 9 and 10 as they are, and the base validation accepting the
    numbers from 0 up to, not including, 10.  Then [stepValue(1)] from the
    current value 9 returns 0 and [stepValue(-1)] from the current value 0
    returns 9, which is the maximum plus the step, [10 + (-1)]. *)
Theorem C4_rotation_between_0_and_10 (f : field)
  (Hmin : _min f = VNum 0) (Hmax : _max f = VNum 10)
  (Hstep : _step f = VNum 1)
  (Hrotate : truthy (_rotate f) = true)
  (Hfilter : forall x : float,
     In x [0; 9; 10]%float -> filterValue f (VNum x) = VNum x)
  (Hbase : forall x : float,
     PrimFloat.leb 0 x = true -> PrimFloat.ltb x 10 = true ->
     Field_validateValue f (VNum x) = Valid) :
  (Field_getValue (base f) = VNum 9 ->
   stepValue f (VNum 1) default_maxTries = VNum 0) /\
  (Field_getValue (base f) = VNum 0 ->
   stepValue f (VNum (-1)) default_maxTries = VNum 9 /\
   js_add (_max f) (js_neg (_step f)) = VNum 9).
Proof.
  assert (Hlim : forall step v, within_limits f step v = true)
    by (intros step v; apply within_limits_rotate; exact Hrotate).
  assert (Hv10 : is_true (validateValue f (VNum 10)) = false).
  { rewrite validateValue_too_large; try reflexivity.
    - apply Hfilter. cbn. tauto.
    - rewrite Hmin. reflexivity.
    - rewrite Hmax. reflexivity.
    - rewrite Hmax. reflexivity. }
  assert (Hin : forall x : float,
            In x [0; 9]%float -> PrimFloat.leb 0 x = true ->
            PrimFloat.ltb x 10 = true ->
            is_true (validateValue f (VNum x)) = true).
  { intros x Hx Hlo Hhi. rewrite validateValue_within.
    - rewrite Hbase by assumption. reflexivity.
    - apply Hfilter. cbn in Hx |- *. tauto.
    - destruct Hx as [<- | [<- | []]]; reflexivity.
    - rewrite Hmin. unfold js_lt, ToNumber.
      rewrite (leb_not_ltb _ _ Hlo). reflexivity.
    - rewrite Hmax. unfold js_ge, ToNumber.
      rewrite (ltb_not_leb _ _ Hhi). reflexivity. }
  assert (Hv0 : is_true (validateValue f (VNum 0)) = true)
    by (apply Hin; [ cbn; tauto | reflexivity | reflexivity ]).
  assert (Hv9 : is_true (validateValue f (VNum 9)) = true)
    by (apply Hin; [ cbn; tauto | reflexivity | reflexivity ]).
  assert (Hc9 : candidate f (VNum 1) (VNum 9) = VNum 10)
    by (unfold candidate; rewrite Hrotate, Hmin, Hmax; reflexivity).
  assert (Hc10 : candidate f (VNum 1) (VNum 10) = VNum 0)
    by (unfold candidate; rewrite Hrotate, Hmin, Hmax; reflexivity).
  assert (Hc0 : candidate f (VNum (-1)) (VNum 0) = VNum 9)
    by (unfold candidate; rewrite Hrotate, Hmin, Hmax; reflexivity).
  unfold stepValue, stepValue_run, default_maxTries.
  split; intros Hget.
  - rewrite while_iter by (try reflexivity; apply Hlim).
    rewrite loop_body_count_try.
    cbn [stepValue_init value_ tries validated]. rewrite Hget, Hc9, Hv10.
    rewrite while_iter by (try reflexivity; apply Hlim).
    rewrite loop_body_count_try. cbn [value_ tries validated].
    rewrite Hc10, Hv0.
    rewrite while_found by reflexivity. reflexivity.
  - rewrite while_iter by (try reflexivity; apply Hlim).
    rewrite loop_body_count_try.
    cbn [stepValue_init value_ tries validated]. rewrite Hget, Hc0, Hv9.
    rewrite while_found by reflexivity.
    rewrite Hmax, Hstep. split; reflexivity.
Qed.

End Properties.

(** ** The properties on the reference collaborators *)

(** C3 as stated fails: with minimum 10 and maximum 5, the finite number 7
    is left unchanged by filtering and is at or above the set maximum, yet
    the result is [numberTooSmall] and not [numberTooLarge]. *)
Lemma C3_counterexample_below_min_and_above_max :
  PrimFloat.is_finite 7 = true /\
  @filterValue RefEnv
    (ref_field (VNum 0) (VNum 10) (VNum 5) (VBool false) accept_all) (VNum 7)
  = VNum 7 /\
  strict_neq (VNum 5) VNull = true /\
  js_ge (VNum 7) (VNum 5) = true /\
  failure_key
    (@validateValue RefEnv
       (ref_field (VNum 0) (VNum 10) (VNum 5) (VBool false) accept_all)
       (VNum 7))
  = Some "numberTooSmall".
Proof.
  repeat split; vm_compute; reflexivity.
Qed.

(** The three cases of C3 on a reference field with bounds 0 and 10. *)
Lemma C3_witness :
  (PrimFloat.is_finite (-1) = true /\
   failure_key
     (@validateValue RefEnv
        (ref_field (VNum 0) (VNum 0) (VNum 10) (VBool false) accept_all)
        (VNum (-1)))
   = Some "numberTooSmall") /\
  (PrimFloat.is_finite 10 = true /\
   failure_key
     (@validateValue RefEnv
        (ref_field (VNum 0) (VNum 0) (VNum 10) (VBool false) accept_all)
        (VNum 10))
   = Some "numberTooLarge") /\
  (PrimFloat.is_finite 5 = true /\
   @validateValue RefEnv
     (ref_field (VNum 0) (VNum 0) (VNum 10) (VBool false) accept_all)
     (VNum 5)
   = Valid).
Proof.
  split; [ | split ].
  - split; [ reflexivity | ].
    apply (proj1 (@C3_validateValue_bounds RefEnv
                    (ref_field (VNum 0) (VNum 0) (VNum 10) (VBool false)
                       accept_all)
                    (-1)%float eq_refl eq_refl)); reflexivity.
  - split; [ reflexivity | ].
    apply (proj1 (proj2 (@C3_validateValue_bounds RefEnv
                    (ref_field (VNum 0) (VNum 0) (VNum 10) (VBool false)
                       accept_all)
                    10%float eq_refl eq_refl))); reflexivity.
  - split; [ reflexivity | ].
    apply (proj1 (proj2 (proj2 (@C3_validateValue_bounds RefEnv
                    (ref_field (VNum 0) (VNum 0) (VNum 10) (VBool false)
                       accept_all)
                    5%float eq_refl eq_refl)))); right; reflexivity.
Defined.

(** The reference filtering leaves 0, 9 and 10 unchanged in float mode. *)
Lemma ref_filter_0_9_10 (f : @field RefEnv) :
  _integer f = VBool false ->
  forall x : float, In x [0; 9; 10]%float ->
    @filterValue RefEnv f (VNum x) = VNum x.
Proof.
  intros Hi x Hx. unfold filterValue, isInteger. rewrite Hi.
  destruct Hx as [<- | [<- | [<- | []]]]; reflexivity.
Defined.

(** C4 on the reference field, from 9 upwards and from 0 downwards. *)
Lemma C4_witness :
  @stepValue RefEnv
    (ref_field (VNum 9) (VNum 0) (VNum 10) (VBool true) accept_all)
    (VNum 1) default_maxTries = VNum 0 /\
  @stepValue RefEnv
    (ref_field (VNum 0) (VNum 0) (VNum 10) (VBool true) accept_all)
    (VNum (-1)) default_maxTries = VNum 9.
Proof.
  split.
  - pose (f := ref_field (VNum 9) (VNum 0) (VNum 10) (VBool true) accept_all).
    apply (proj1 (@C4_rotation_between_0_and_10 RefEnv f
                    eq_refl eq_refl eq_refl eq_refl
                    (ref_filter_0_9_10 f eq_refl)
                    (fun _ _ _ => eq_refl))).
    reflexivity.
  - pose (f := ref_field (VNum 0) (VNum 0) (VNum 10) (VBool true) accept_all).
    apply (proj2 (@C4_rotation_between_0_and_10 RefEnv f
                    eq_refl eq_refl eq_refl eq_refl
                    (ref_filter_0_9_10 f eq_refl)
                    (fun _ _ _ => eq_refl))).
    reflexivity.
Defined.

(** On the reference base, a validator that rejects everything makes
    every validation fail. *)
Lemma ref_reject_all (f : @field RefEnv) (v : value) :
  validator (base f) = reject_all ->
  is_true (@validateValue RefEnv f v) = false.
Proof.
  intros Hr. unfold validateValue.
  destruct (isNaN _ || negb (isFinite _)); [ reflexivity | ].
  destruct (strict_neq (_min f) VNull && js_lt _ (_min f)); [ reflexivity | ].
  destruct (strict_neq (_max f) VNull && js_ge _ (_max f)); [ reflexivity | ].
  change (is_true (validator (base f) (@filterValue RefEnv f v)) = false).
  rewrite Hr. reflexivity.
Qed.

(** C5 as stated fails: rotation disabled, current value 0 equal to the
    minimum, every validation rejected.  A downward [stepValue] with
    [maxTries = 100] returns [null] after no attempt at all, not after
    exactly 100. *)
Lemma C5_counterexample_limits_stop_the_search :
  (forall v : value,
     is_true (@validateValue RefEnv
                (ref_field (VNum 0) (VNum 0) (VNum 10) (VBool false) reject_all)
                v) = false) /\
  @stepValue RefEnv
    (ref_field (VNum 0) (VNum 0) (VNum 10) (VBool false) reject_all)
    (VNum (-1)) 100 = VNull /\
  @stepValue_attempts RefEnv
    (ref_field (VNum 0) (VNum 0) (VNum 10) (VBool false) reject_all)
    (VNum (-1)) 100 = 0.
Proof.
  split; [ intros v; apply ref_reject_all; reflexivity | ].
  split; vm_compute; reflexivity.
Qed.

(** C5 on a rotating reference field whose validator rejects everything:
    seven tries, seven attempts, [null]. *)
Lemma C5_witness :
  @stepValue RefEnv
    (ref_field (VNum 0) (VNum 0) (VNum 10) (VBool true) reject_all)
    (VNum 1) 7 = VNull /\
  @stepValue_attempts RefEnv
    (ref_field (VNum 0) (VNum 0) (VNum 10) (VBool true) reject_all)
    (VNum 1) 7 = 7.
Proof.
  pose (f := ref_field (VNum 0) (VNum 0) (VNum 10) (VBool true) reject_all).
  destruct (proj1 (@C5_stepValue_bounded_search RefEnv f (VNum 1) 7
                     ltac:(vm_compute; discriminate)))
    as [l [_ [_ [_ [_ Hnone]]]]].
  destruct (Hnone (fun v _ => ref_reject_all f v eq_refl))
    as [Hnull [Hexact _]].
  split; [ exact Hnull | exact (Hexact eq_refl) ].
Defined.

(** C6 on non-rotating reference fields standing at the minimum and at
    the maximum. *)
Lemma C6_witness :
  (@stepValue RefEnv
     (ref_field (VNum 0) (VNum 0) (VNum 10) (VBool false) accept_all)
     (VNum (-1)) default_maxTries = VNull /\
   @stepValue_attempts RefEnv
     (ref_field (VNum 0) (VNum 0) (VNum 10) (VBool false) accept_all)
     (VNum (-1)) default_maxTries = 0) /\
  (@stepValue RefEnv
     (ref_field (VNum 10) (VNum 0) (VNum 10) (VBool false) accept_all)
     (VNum 1) default_maxTries = VNull /\
   @stepValue_attempts RefEnv
     (ref_field (VNum 10) (VNum 0) (VNum 10) (VBool false) accept_all)
     (VNum 1) default_maxTries = 0).
Proof.
  split.
  - pose (f := ref_field (VNum 0) (VNum 0) (VNum 10) (VBool false) accept_all).
    exact (proj1 (@C6_no_rotation_boundary_guard RefEnv f (VNum (-1))
                    default_maxTries eq_refl) eq_refl eq_refl).
  - pose (f := ref_field (VNum 10) (VNum 0) (VNum 10) (VBool false) accept_all).
    exact (proj2 (@C6_no_rotation_boundary_guard RefEnv f (VNum 1)
                    default_maxTries eq_refl) eq_refl eq_refl).
Defined.

(** C7 as stated fails, in two ways.  In integer mode with minimum 0,
    maximum 10.5 and step 0.5, the first candidate from 10 is exactly the
    maximum; validation reads it as 10, accepts it, and one try returns
    10.5.  With minimum 0, maximum [2^53] and step 1, the first candidate
    from [2^53 - 1] is exactly the maximum and is rejected, but one more
    step gives [2^53] again, which never exceeds the maximum: the minimum,
    although valid, is not reached on the second attempt nor within 100. *)
Lemma C7_counterexample_maximum_accepted_or_never_exceeded :
  (strict_eq (js_add (VNum 10) (VNum 0.5)) (VNum 10.5) = true /\
   @validateValue RefEnv
     (ref_integer_field (VNum 10) (VNum 0) (VNum 10.5) (VBool true) accept_all)
     (VNum 10.5) = Valid /\
   @stepValue RefEnv
     (ref_integer_field (VNum 10) (VNum 0) (VNum 10.5) (VBool true) accept_all)
     (VNum 0.5) 1 = VNum 10.5) /\
  (strict_eq (js_add (VNum 9007199254740991) (VNum 1)) (VNum 9007199254740992)
   = true /\
   @validateValue RefEnv
     (ref_field (VNum 9007199254740991) (VNum 0) (VNum 9007199254740992)
        (VBool true) accept_all)
     (VNum 0) = Valid /\
   @stepValue RefEnv
     (ref_field (VNum 9007199254740991) (VNum 0) (VNum 9007199254740992)
        (VBool true) accept_all)
     (VNum 1) 2 = VNull /\
   @stepValue RefEnv
     (ref_field (VNum 9007199254740991) (VNum 0) (VNum 9007199254740992)
        (VBool true) accept_all)
     (VNum 1) default_maxTries = VNull).
Proof.
  repeat split; vm_compute; reflexivity.
Qed.

(** C7 on the reference field with bounds 0 and 10, from 9 upwards: one
    try gives [null], two tries give 0. *)
Lemma C7_witness :
  @stepValue RefEnv
    (ref_field (VNum 9) (VNum 0) (VNum 10) (VBool true) accept_all)
    (VNum 1) 1 = VNull /\
  @stepValue RefEnv
    (ref_field (VNum 9) (VNum 0) (VNum 10) (VBool true) accept_all)
    (VNum 1) 2 = VNum 0 /\
  @stepValue_attempts RefEnv
    (ref_field (VNum 9) (VNum 0) (VNum 10) (VBool true) accept_all)
    (VNum 1) 2 = 2.
Proof.
  pose (f := ref_field (VNum 9) (VNum 0) (VNum 10) (VBool true) accept_all).
  destruct (proj2 (proj2 (@C7_upward_wrap_is_strict RefEnv f (VNum 1)))
              eq_refl eq_refl eq_refl eq_refl eq_refl)
    as [_ [_ [Hfew [_ Hsecond]]]].
  split; [ exact (Hfew 1 (le_n 2)) | ].
  exact (Hsecond eq_refl eq_refl 2 (le_n 2)).
Defined.

(** The reference generator answers every request with its lower bound,
    which lies in the requested range. *)
Lemma ref_nextInteger_in_range (r : unit) (a b : value) :
  js_ge b a = true ->
  js_ge (fst (@nextInteger RefEnv r a b)) a = true /\
  js_ge b (fst (@nextInteger RefEnv r a b)) = true.
Proof.
  intros H. cbn. split; [ | exact H ].
  unfold js_ge in *. exact (leb_refl_of_leb _ _ H).
Qed.

(** C9 on an integer reference field with bounds 0 and 5. *)
Lemma C9_witness :
  @randomizeValue RefEnv
    (ref_integer_field (VNum 0) (VNum 0) (VNum 5) (VBool false) accept_all) tt
  = @nextInteger RefEnv tt (VNum 0) (VNum 4) /\
  strict_eq
    (fst (@randomizeValue RefEnv
            (ref_integer_field (VNum 0) (VNum 0) (VNum 5) (VBool false)
               accept_all) tt))
    (VNum 5) = false.
Proof.
  pose (f := ref_integer_field (VNum 0) (VNum 0) (VNum 5) (VBool false)
               accept_all).
  destruct (proj2 (proj2 (proj2 (@C9_randomizeValue RefEnv f tt eq_refl)))
              eq_refl eq_refl eq_refl) as [Hcall Hrange].
  split; [ exact Hcall | ].
  exact (proj2 (proj2 (Hrange ref_nextInteger_in_range))).
Defined.

(** C10 on reference fields: valid with a callback, invalid with a
    callback, valid without one. *)
Lemma C10_witness :
  @getValueDescription RefEnv
    (ref_described_field (VNum 3) true (Some (fun _ => Some "three")))
  = Some "three" /\
  @getValueDescription RefEnv
    (ref_described_field (VNum 3) false (Some (fun _ => Some "three")))
  = None /\
  @getValueDescription RefEnv (ref_described_field (VNum 3) true None) = None.
Proof.
  split; [ | split ].
  - exact (proj2 (proj2 (@C10_getValueDescription RefEnv
             (ref_described_field (VNum 3) true (Some (fun _ => Some "three")))))
             (fun _ => Some "three") eq_refl eq_refl).
  - exact (proj1 (@C10_getValueDescription RefEnv
             (ref_described_field (VNum 3) false (Some (fun _ => Some "three"))))
             eq_refl).
  - exact (proj1 (proj2 (@C10_getValueDescription RefEnv
             (ref_described_field (VNum 3) true None))) eq_refl).
Defined.

(** ** Further comparisons of binary64 numbers *)

Lemma is_nan_Prim2SF (x : float) :
  PrimFloat.is_nan x = false -> Prim2SF x <> S754_nan.
Proof.
  unfold PrimFloat.is_nan. rewrite eqb_spec. unfold SFeqb.
  intros H Hx. rewrite Hx in H. discriminate H.
Qed.

Lemma SFcompare_None (a b : spec_float) :
  SFcompare a b = None -> a = S754_nan \/ b = S754_nan.
Proof.
  destruct a as [sa | sa | | sa ma ea], b as [sb | sb | | sb mb eb]; cbn;
    try discriminate; try (left; reflexivity); try (right; reflexivity).
Qed.

(** Two numbers, none of them [NaN], are comparable. *)
Lemma ltb_false_leb (x y : float) :
  PrimFloat.is_nan x = false -> PrimFloat.is_nan y = false ->
  PrimFloat.ltb x y = false -> PrimFloat.leb y x = true.
Proof.
  intros Hx Hy. apply is_nan_Prim2SF in Hx, Hy.
  rewrite ltb_spec, leb_spec. unfold SFltb, SFleb.
  rewrite (SFcompare_antisym (Prim2SF x) (Prim2SF y)).
  destruct (SFcompare (Prim2SF x) (Prim2SF y)) as [[ | | ] | ] eqn:Hc;
    cbn; try congruence.
  apply SFcompare_None in Hc. tauto.
Qed.

Lemma SFleb_trans (a b c : spec_float) :
  SFleb a b = true -> SFleb b c = true -> SFleb a c = true.
Proof.
  unfold SFleb.
  destruct a as [sa | sa | | sa ma ea], b as [sb | sb | | sb mb eb],
    c as [sc | sc | | sc mc ec]; cbn;
    try discriminate; try reflexivity;
    try (destruct sa; try discriminate; try reflexivity;
         destruct sb; try discriminate; try reflexivity;
         destruct sc; try discriminate; reflexivity);
    try (destruct sa; try discriminate; try reflexivity;
         destruct sc; try discriminate; try reflexivity;
         destruct sb; try discriminate; reflexivity);
    try (destruct sb; try discriminate; try reflexivity;
         destruct sc; try discriminate; try reflexivity;
         destruct sa; try discriminate; reflexivity);
    try (destruct sb; try discriminate; try reflexivity;
         destruct sa; try discriminate; try reflexivity;
         destruct sc; try discriminate; reflexivity).
  all: destruct sa, sb, sc; try discriminate; try reflexivity.
  all: change (Pos.compare_cont Eq ma mb) with (ma ?= mb)%positive;
       change (Pos.compare_cont Eq mb mc) with (mb ?= mc)%positive;
       change (Pos.compare_cont Eq ma mc) with (ma ?= mc)%positive.
  all: destruct (Z.compare_spec ea eb), (Z.compare_spec eb ec),
         (Z.compare_spec ea ec); try lia; try discriminate; try reflexivity;
       subst;
       destruct (Pos.compare_spec ma mb), (Pos.compare_spec mb mc),
         (Pos.compare_spec ma mc); cbn; try lia; try discriminate;
       try reflexivity.
Qed.

Lemma leb_trans (x y z : float) :
  PrimFloat.leb x y = true -> PrimFloat.leb y z = true ->
  PrimFloat.leb x z = true.
Proof.
  rewrite !leb_spec. apply SFleb_trans.
Qed.

Lemma SFcompare_refl (a : spec_float) :
  a <> S754_nan -> SFcompare a a = Some Eq.
Proof.
  destruct a as [sa | sa | | sa ma ea]; cbn; intros H;
    try reflexivity; try (destruct sa; reflexivity); [ congruence | ].
  rewrite Z.compare_refl, Pos.compare_cont_refl. destruct sa; reflexivity.
Qed.

Lemma Prim2SF_is_nan (x : float) :
  Prim2SF x <> S754_nan -> PrimFloat.is_nan x = false.
Proof.
  intros H. unfold PrimFloat.is_nan. rewrite eqb_spec. unfold SFeqb.
  rewrite (SFcompare_refl _ H). reflexivity.
Qed.

(** Both sides of a comparison that holds are numbers. *)
Lemma leb_not_nan (x y : float) :
  PrimFloat.leb x y = true ->
  PrimFloat.is_nan x = false /\ PrimFloat.is_nan y = false.
Proof.
  rewrite leb_spec. unfold SFleb. intros H.
  split; apply Prim2SF_is_nan; intros Hn; rewrite Hn in H;
    [ | destruct (Prim2SF x) ]; discriminate H.
Qed.

Lemma leb_false_ltb (x y : float) :
  PrimFloat.is_nan x = false -> PrimFloat.is_nan y = false ->
  PrimFloat.leb x y = false -> PrimFloat.ltb y x = true.
Proof.
  intros Hx Hy. apply is_nan_Prim2SF in Hx, Hy.
  rewrite ltb_spec, leb_spec. unfold SFltb, SFleb.
  rewrite (SFcompare_antisym (Prim2SF x) (Prim2SF y)).
  destruct (SFcompare (Prim2SF x) (Prim2SF y)) as [[ | | ] | ] eqn:Hc;
    cbn; try congruence.
  apply SFcompare_None in Hc. tauto.
Qed.

(** Nothing is below, or at or above, [NaN]. *)
Lemma compare_with_nan (x y : float) :
  PrimFloat.is_nan y = true ->
  PrimFloat.ltb x y = false /\ PrimFloat.leb y x = false.
Proof.
  intros Hy.
  assert (Hn : Prim2SF y = S754_nan).
  { destruct (Prim2SF y) eqn:Hsf; try reflexivity;
      rewrite Prim2SF_is_nan in Hy by (rewrite Hsf; discriminate);
      discriminate Hy. }
  rewrite ltb_spec, leb_spec. unfold SFltb, SFleb. rewrite Hn.
  split; [ destruct (Prim2SF x); reflexivity | reflexivity ].
Qed.

(** ** Further properties of the class *)

Section FurtherProperties.
Context `{E : Env}.

(** *** Construction and setters *)

Lemma js_or_null_set (v : value) :
  strict_neq (js_or v VNull) VNull = truthy v.
Proof.
  unfold js_or. destruct (truthy v) eqn:Hv; [ | reflexivity ].
  destruct v; try discriminate Hv; reflexivity.
Qed.

(** X1: whatever the [rotate] option is, a new field rotates exactly when
    both bounds were supplied with truthy values, and [isRotate()] is a
    boolean; without an options bag it does not rotate. *)
Theorem X1_constructor_rotation_follows_bounds (name : string)
  (fs : FieldSpec) (o : Options Callback) :
  isRotate (constructor name {| field_spec := fs; options := Some o |}) =
  VBool (truthy (min o) && truthy (max o)) /\
  isRotate (constructor name {| field_spec := fs; options := None |}) =
  VBool false.
Proof.
  split; [ | reflexivity ].
  unfold isRotate, constructor; cbn.
  unfold js_and. rewrite js_or_true_truthy. cbn [truthy].
  rewrite !js_or_null_set.
  destruct (truthy (min o)); reflexivity.
Qed.

(** X2: no falsy option survives construction.  The step of a new field
    is truthy (never 0, [NaN], [null] or [undefined]); each bound is either
    [null] or the supplied truthy value (never 0); the integer flag is
    either [false] or the supplied truthy value; the description callback
    and the base state are the supplied ones. *)
Theorem X2_constructor_keeps_no_falsy_option (name : string)
  (fs : FieldSpec) (o : Options Callback) :
  let f := constructor name {| field_spec := fs; options := Some o |} in
  truthy (getStep f) = true /\
  (getStep f = VNum 1 \/ getStep f = step o) /\
  (getMin f = VNull \/ (truthy (getMin f) = true /\ getMin f = min o)) /\
  (getMax f = VNull \/ (truthy (getMax f) = true /\ getMax f = max o)) /\
  (isInteger f = VBool false \/
   (truthy (isInteger f) = true /\ isInteger f = integer o)) /\
  _describeValueCallback f = describeValue o /\
  base f = Field_constructor name fs.
Proof.
  cbn. unfold getStep, getMin, getMax, isInteger, js_or; cbn.
  destruct (truthy (step o)) eqn:Hs, (truthy (min o)) eqn:Hlo,
    (truthy (max o)) eqn:Hhi, (truthy (integer o)) eqn:Hi;
    repeat split; auto.
Qed.

(** X4: [setRotate(rotate)] turns rotation on exactly when [rotate] is
    truthy and both bounds are non-null, whatever the flag was before; with
    a boolean argument the stored flag is a boolean; nothing else of the
    field changes, and repeating the call changes nothing more. *)
Theorem X4_setRotate_follows_bounds (rotate : value) (f : field) :
  truthy (isRotate (fst (setRotate rotate f))) =
  truthy rotate && strict_neq (_min f) VNull && strict_neq (_max f) VNull /\
  (forall b : bool, rotate = VBool b ->
     isRotate (fst (setRotate rotate f)) =
     VBool (b && strict_neq (_min f) VNull && strict_neq (_max f) VNull)) /\
  isInteger (fst (setRotate rotate f)) = isInteger f /\
  getStep (fst (setRotate rotate f)) = getStep f /\
  getMin (fst (setRotate rotate f)) = getMin f /\
  getMax (fst (setRotate rotate f)) = getMax f /\
  _describeValueCallback (fst (setRotate rotate f)) = _describeValueCallback f /\
  base (fst (setRotate rotate f)) = base f /\
  fst (setRotate rotate (fst (setRotate rotate f))) = fst (setRotate rotate f).
Proof.
  unfold setRotate, isRotate; cbn. unfold js_and.
  split; [ | split ].
  - destruct (truthy rotate) eqn:Hr; cbn.
    + destruct (strict_neq (_min f) VNull); reflexivity.
    + rewrite Hr. cbn. exact Hr.
  - intros b ->. destruct b; cbn; [ | reflexivity ].
    destruct (strict_neq (_min f) VNull); reflexivity.
  - repeat split; reflexivity.
Qed.

(** *** Sequences of calls *)

Lemma same_options_refl (f : field) : same_options f f.
Proof. repeat split. Qed.

Lemma same_options_trans (f g h : field) :
  same_options f g -> same_options g h -> same_options f h.
Proof.
  unfold same_options. intros [? [? [? [? [? ?]]]]] [? [? [? [? [? ?]]]]].
  repeat split; congruence.
Qed.

Lemma with_base_same_options (f : field) (b : Base) :
  same_options f (with_base f b).
Proof. repeat split. Qed.

(** A call that is not a setter of an option leaves the options alone. *)
Lemma perform_same_options (c : call) (f : field) :
  is_option_setter c = false -> same_options f (fst (perform c f)).
Proof.
  destruct c; try discriminate; intros _; cbn [perform].
  - unfold stepUp. destruct (strict_neq _ VNull);
      [ destruct (Field_setValue f _); apply with_base_same_options
      | apply same_options_refl ].
  - unfold stepDown. destruct (strict_neq _ VNull);
      [ destruct (Field_setValue f _); apply with_base_same_options
      | apply same_options_refl ].
  - unfold setNeedsValueDescriptionUpdate. cbn [fst].
    destruct (Field_hasView (base f));
      [ apply with_base_same_options | apply same_options_refl ].
Qed.

(** No call touches the description callback. *)
Lemma perform_keeps_callback (c : call) (f : field) :
  _describeValueCallback (fst (perform c f)) = _describeValueCallback f.
Proof.
  destruct (is_option_setter c) eqn:Hc.
  - destruct c; try discriminate Hc; cbn [perform];
      try reflexivity;
      unfold setInteger, setMin, setMax;
      destruct (Field_revalidateValue _); reflexivity.
  - destruct (perform_same_options c f Hc) as [_ [_ [_ [_ [_ H]]]]]. exact H.
Qed.

(** A call that clears no bound keeps the rotation flag tied to the
    bounds. *)
Lemma perform_rotate_needs_bounds (c : call) (f : field) :
  keeps_bounds c -> rotate_needs_bounds f ->
  rotate_needs_bounds (fst (perform c f)).
Proof.
  intros Hc Hinv.
  destruct (is_option_setter c) eqn:Hs.
  - destruct c as [v | v | v | v | v | | | ]; try discriminate Hs;
      cbn [perform keeps_bounds] in *.
    + unfold setInteger. destruct (Field_revalidateValue _). exact Hinv.
    + exact Hinv.
    + unfold setMin. destruct (Field_revalidateValue _).
      intros Hr. destruct (Hinv Hr) as [_ Hmax]. split; assumption.
    + unfold setMax. destruct (Field_revalidateValue _).
      intros Hr. destruct (Hinv Hr) as [Hmin _]. split; assumption.
    + exact (setRotate_bounds v f).
  - destruct (perform_same_options c f Hs) as [_ [_ [Hlo [Hhi [Hr _]]]]].
    unfold rotate_needs_bounds. rewrite Hlo, Hhi, Hr. exact Hinv.
Qed.

(** X5: as long as no call clears a bound ([setMin(null)] or
    [setMax(null)]), rotation stays tied to the bounds: after the
    constructor and any such sequence of setters, steps and description
    updates, [isRotate()] is truthy only if both bounds are non-null; the
    same holds from any field that satisfies it. *)
Theorem X5_rotation_needs_bounds_while_bounds_are_kept (cs : list call) :
  Forall keeps_bounds cs ->
  (forall (name : string) (spec : Spec),
     truthy (isRotate (perform_all cs (constructor name spec))) = true ->
     getMin (perform_all cs (constructor name spec)) <> VNull /\
     getMax (perform_all cs (constructor name spec)) <> VNull) /\
  (forall f : field,
     rotate_needs_bounds f -> rotate_needs_bounds (perform_all cs f)).
Proof.
  intros Hcs.
  assert (Hall : forall f : field,
            rotate_needs_bounds f -> rotate_needs_bounds (perform_all cs f)).
  { unfold perform_all. induction Hcs as [ | c cs Hc _ IH]; intros f Hinv;
      [ exact Hinv | ].
    cbn [fold_left]. apply IH. apply perform_rotate_needs_bounds; assumption. }
  split; [ | exact Hall ].
  intros name spec. apply Hall. exact (constructor_rotate_bounds name spec).
Qed.

(** X6: no call ever changes the description callback: after any
    sequence of setters, steps and description updates the field still
    carries the callback it was constructed with. *)
Theorem X6_callback_is_fixed_at_construction (cs : list call) (f : field)
  (name : string) (fs : FieldSpec) (o : Options Callback) :
  _describeValueCallback (perform_all cs f) = _describeValueCallback f /\
  _describeValueCallback
    (perform_all cs (constructor name {| field_spec := fs; options := Some o |}))
  = describeValue o.
Proof.
  assert (Hall : forall g : field,
            _describeValueCallback (perform_all cs g) = _describeValueCallback g).
  { unfold perform_all. induction cs as [ | c cs IH]; intros g;
      [ reflexivity | ].
    cbn [fold_left]. rewrite IH. apply perform_keeps_callback. }
  split; [ apply Hall | rewrite Hall; reflexivity ].
Qed.

(** X7: only the setters change the options.  A sequence made of
    [stepUp], [stepDown] and [setNeedsValueDescriptionUpdate] leaves the
    integer flag, the step, the bounds, the rotation flag and the callback
    as they were. *)
Theorem X7_steps_keep_the_options (cs : list call) (f : field) :
  forallb (fun c => negb (is_option_setter c)) cs = true ->
  same_options f (perform_all cs f).
Proof.
  unfold perform_all. revert f.
  induction cs as [ | c cs IH]; intros f Hcs; [ apply same_options_refl | ].
  cbn [forallb] in Hcs. apply andb_true_iff in Hcs. destruct Hcs as [Hc Hcs].
  apply negb_true_iff in Hc.
  cbn [fold_left].
  apply same_options_trans with (g := fst (perform c f));
    [ apply perform_same_options; exact Hc | apply IH; exact Hcs ].
Qed.

(** Every call does to the options what the setters alone say. *)
Lemma perform_replay (c : call) (f : field) :
  options_of (fst (perform c f)) = replay_call c (options_of f).
Proof.
  destruct (is_option_setter c) eqn:Hc.
  - destruct c; try discriminate Hc; cbn [perform replay_call];
      try reflexivity;
      unfold setInteger, setMin, setMax;
      destruct (Field_revalidateValue _); reflexivity.
  - assert (Hr : replay_call c (options_of f) = options_of f)
      by (destruct c; try discriminate Hc; reflexivity).
    rewrite Hr.
    destruct (perform_same_options c f Hc) as [H1 [H2 [H3 [H4 [H5 H6]]]]].
    unfold options_of. rewrite H1, H2, H3, H4, H5, H6. reflexivity.
Qed.


(** *** Validation *)

(** What a successful validation says about the filtered value. *)
Lemma validateValue_Valid_inv (f : field) (raw : value) :
  validateValue f raw = Valid ->
  isNaN (filterValue f raw) = false /\
  isFinite (filterValue f raw) = true /\
  (strict_neq (_min f) VNull && js_lt (filterValue f raw) (_min f)) = false /\
  (strict_neq (_max f) VNull && js_ge (filterValue f raw) (_max f)) = false /\
  Field_validateValue f (filterValue f raw) = Valid.
Proof.
  unfold validateValue.
  destruct (isNaN (filterValue f raw)) eqn:Hn; [ discriminate | ].
  destruct (isFinite (filterValue f raw)) eqn:Hf; [ | discriminate ].
  cbn [orb negb].
  destruct (strict_neq (_min f) VNull && js_lt (filterValue f raw) (_min f));
    [ discriminate | ].
  destruct (strict_neq (_max f) VNull && js_ge (filterValue f raw) (_max f));
    [ discriminate | ].
  intros H. repeat split; assumption.
Qed.

(** X8: a value that validates is, once filtered, a finite number inside
    the bounds and accepted by the base validation: not below a set
    minimum and not at or above a set maximum; against bounds that are
    numbers this reads [minimum <= v] and [v < maximum]. *)
Theorem X8_valid_values_are_within_bounds (f : field) (raw : value) :
  validateValue f raw = Valid ->
  isNaN (filterValue f raw) = false /\
  isFinite (filterValue f raw) = true /\
  (_min f <> VNull -> js_lt (filterValue f raw) (_min f) = false) /\
  (_max f <> VNull -> js_ge (filterValue f raw) (_max f) = false) /\
  (forall a : float, _min f = VNum a -> PrimFloat.is_nan a = false ->
     js_ge (filterValue f raw) (VNum a) = true) /\
  (forall b : float, _max f = VNum b -> PrimFloat.is_nan b = false ->
     js_lt (filterValue f raw) (VNum b) = true) /\
  Field_validateValue f (filterValue f raw) = Valid.
Proof.
  intros H.
  destruct (validateValue_Valid_inv f raw H) as [Hn [Hf [Hlo [Hhi Hb]]]].
  split; [ exact Hn | ]. split; [ exact Hf | ].
  split; [ | split; [ | split; [ | split; [ | exact Hb ] ] ] ].
  - intros Hset. apply strict_neq_null in Hset. now rewrite Hset in Hlo.
  - intros Hset. apply strict_neq_null in Hset. now rewrite Hset in Hhi.
  - intros a Ha Hna. rewrite Ha in Hlo. cbn in Hlo.
    unfold js_lt in Hlo. unfold js_ge. cbn [ToNumber] in *.
    apply ltb_false_leb; assumption.
  - intros b Hb' Hnb. rewrite Hb' in Hhi. cbn in Hhi.
    unfold js_ge in Hhi. unfold js_lt. cbn [ToNumber] in *.
    apply leb_false_ltb; assumption.
Qed.

(** X9: a field whose maximum is not above its minimum has no valid
    value: every validation fails (as not numeric, too small or too large,
    without the base validation being asked), and [stepValue] returns
    [null] for every step and every whole count [maxTries] up to
    [2^53]. *)
Theorem X9_empty_range_has_no_valid_value (f : field) (a b : float) :
  _min f = VNum a -> _max f = VNum b -> PrimFloat.leb b a = true ->
  (forall raw : value,
     failure_key (validateValue f raw) = Some "numberNotNumeric" \/
     failure_key (validateValue f raw) = Some "numberTooSmall" \/
     failure_key (validateValue f raw) = Some "numberTooLarge") /\
  (forall (step : value) (maxTries : nat),
     whole_count maxTries ->
     stepValue f step maxTries = VNull).
Proof.
  intros Hmin Hmax Hle.
  assert (Hfail : forall raw : value,
            failure_key (validateValue f raw) = Some "numberNotNumeric" \/
            failure_key (validateValue f raw) = Some "numberTooSmall" \/
            failure_key (validateValue f raw) = Some "numberTooLarge").
  { intros raw. unfold validateValue. rewrite Hmin, Hmax.
    destruct (isNaN (filterValue f raw)) eqn:Hn; [ left; reflexivity | ].
    destruct (isFinite (filterValue f raw)); [ | left; reflexivity ].
    cbn [orb negb strict_neq strict_eq andb].
    destruct (js_lt (filterValue f raw) (VNum a)) eqn:Hlt;
      [ right; left; reflexivity | ].
    right; right.
    assert (Hge : js_ge (filterValue f raw) (VNum b) = true).
    { unfold js_ge, js_lt, isNaN in *. cbn [ToNumber] in *.
      apply leb_trans with (y := a); [ exact Hle | ].
      apply ltb_false_leb; [ exact Hn | | exact Hlt ].
      apply (leb_not_nan _ _ Hle). }
    rewrite Hge. reflexivity. }
  split; [ exact Hfail | ].
  intros step maxTries _.
  destruct (stepValue f step maxTries) eqn:Hs; try reflexivity;
    (assert (Hv : validateValue f (stepValue f step maxTries) = Valid)
       by (apply stepValue_result_valid; rewrite Hs; discriminate));
    destruct (Hfail (stepValue f step maxTries)) as [H | [H | H]];
    rewrite Hv in H; discriminate H.
Qed.

(** X17: only [null] switches a bound off, but a bound that is not a
    number is never enforced.  With both bounds [undefined] or [NaN], a
    value that filters to a finite number gets the verdict of the base
    validation, whatever the number is; yet [setRotate(true)] on a field
    whose bounds are both [undefined] turns rotation on. *)
Theorem X17_non_numeric_bounds_are_not_enforced (f : field) :
  (isNaN (_min f) = true -> isNaN (_max f) = true ->
   forall raw : value,
     isFinite (filterValue f raw) = true ->
     validateValue f raw = Field_validateValue f (filterValue f raw)) /\
  (_min f = VUndefined -> _max f = VUndefined ->
   isRotate (fst (setRotate (VBool true) f)) = VBool true).
Proof.
  split.
  - intros Hlo Hhi raw Hfin. unfold validateValue.
    assert (Hn : isNaN (filterValue f raw) = false).
    { unfold isFinite, PrimFloat.is_finite in Hfin. unfold isNaN.
      destruct (PrimFloat.is_nan (ToNumber (filterValue f raw)));
        [ discriminate Hfin | reflexivity ]. }
    rewrite Hn, Hfin. cbn [orb negb].
    unfold js_lt, js_ge.
    rewrite (proj1 (compare_with_nan _ _ Hlo)).
    rewrite (proj2 (compare_with_nan _ _ Hhi)).
    rewrite !andb_false_r. reflexivity.
  - intros Hlo Hhi. unfold setRotate, isRotate; cbn. rewrite Hlo, Hhi.
    reflexivity.
Qed.

(** *** The stepping search *)

(** The loop runs through [k] rejected candidates and stops at the next
    one when it validates. *)
Lemma while_reaches (f : field) (step : value) (maxTries : nat) :
  forall (k fuel : nat) (l : locals),
    valueFound l = false ->
    tries l + S k <= maxTries ->
    k + 2 <= fuel ->
    (forall j : nat, j <= k ->
       within_limits f step (nth_candidate f step j (value_ l)) = true) ->
    (forall j : nat, j < k ->
       is_true (validateValue f (nth_candidate f step (S j) (value_ l)))
       = false) ->
    is_true (validateValue f (nth_candidate f step (S k) (value_ l))) = true ->
    exists l' : locals,
      while fuel f step maxTries l = Some l' /\
      valueFound l' = true /\
      value_ l' = nth_candidate f step (S k) (value_ l) /\
      List.length (validated l') = List.length (validated l) + S k.
Proof.
  induction k as [ | k IH]; intros fuel l Hfound Htries Hfuel Hlim Hrej Hok.
  - destruct fuel as [ | [ | fuel]]; try lia.
    rewrite while_iter;
      [ | exact Hfound | apply Nat.ltb_lt; lia | exact (Hlim 0 (le_n 0)) ].
    rewrite loop_body_count_try. cbn [nth_candidate] in Hok.
    rewrite while_found by (cbn; exact Hok).
    eexists. split; [ reflexivity | ]. cbn.
    split; [ exact Hok | ]. split; [ reflexivity | lia ].
  - destruct fuel as [ | fuel]; [ lia | ].
    rewrite while_iter;
      [ | exact Hfound | apply Nat.ltb_lt; lia | exact (Hlim 0 (Nat.le_0_l _)) ].
    rewrite loop_body_count_try.
    set (l1 := {| value_ := candidate f step (value_ l) |}).
    destruct (IH fuel l1) as [l' [Hrun [Hf' [Hv' Hlen']]]].
    + subst l1; cbn. exact (Hrej 0 (Nat.lt_0_succ k)).
    + subst l1; cbn. lia.
    + lia.
    + intros j Hj. subst l1; cbn [value_].
      exact (Hlim (S j) (proj1 (Nat.succ_le_mono j k) Hj)).
    + intros j Hj. subst l1; cbn [value_].
      exact (Hrej (S j) (proj1 (Nat.succ_lt_mono j k) Hj)).
    + subst l1; cbn [value_]. exact Hok.
    + exists l'. split; [ exact Hrun | ]. split; [ exact Hf' | ].
      split; [ exact Hv' | ]. subst l1; cbn in Hlen'. lia.
Qed.

(** X10: [stepValue] returns the first candidate that validates.  If the
    candidates number 1 to [k] obtained by stepping (and rotating) from the
    current value are all rejected, candidate [k + 1] validates, the limits
    of a non-rotating field stop none of these iterations and
    [k + 1 <= maxTries], then the result is candidate [k + 1], found after
    exactly [k + 1] attempts. *)
Theorem X10_stepValue_returns_first_valid_candidate (f : field)
  (step : value) (maxTries k : nat) :
  S k <= maxTries ->
  (forall j : nat, j <= k ->
     within_limits f step
       (nth_candidate f step j (Field_getValue (base f))) = true) ->
  (forall j : nat, j < k ->
     is_true (validateValue f
       (nth_candidate f step (S j) (Field_getValue (base f)))) = false) ->
  is_true (validateValue f
    (nth_candidate f step (S k) (Field_getValue (base f)))) = true ->
  stepValue f step maxTries =
  nth_candidate f step (S k) (Field_getValue (base f)) /\
  stepValue_attempts f step maxTries = S k.
Proof.
  intros Hk Hlim Hrej Hok.
  destruct (while_reaches f step maxTries k (S maxTries) (stepValue_init f))
    as [l' [Hrun [Hf' [Hv' Hlen']]]]; try assumption;
    try reflexivity; try (cbn; lia).
  unfold stepValue, stepValue_attempts, stepValue_run.
  rewrite Hrun, Hf'. split; [ exact Hv' | exact Hlen' ].
Qed.

(** A search that finds a value finds the same one with more tries. *)
Lemma while_found_more_tries (f : field) (step : value) (n m : nat) :
  n <= m ->
  forall (fuel : nat) (l l' : locals),
    while fuel f step n l = Some l' ->
    valueFound l' = true ->
    forall fuel' : nat, fuel <= fuel' ->
      while fuel' f step m l = Some l'.
Proof.
  intros Hnm.
  induction fuel as [ | fuel IH]; intros l l' Hrun Hf' fuel' Hfuel;
    [ discriminate Hrun | ].
  destruct fuel' as [ | fuel']; [ lia | ].
  cbn [while] in *. unfold loop_cond in *.
  destruct (valueFound l) eqn:Hfound; [ exact Hrun | ].
  destruct (tries l <? n)%nat eqn:Ht; cbn [andb] in Hrun.
  - apply Nat.ltb_lt in Ht.
    assert (Hm : (tries l <? m)%nat = true) by (apply Nat.ltb_lt; lia).
    rewrite Hm. cbn [andb].
    destruct (within_limits f step (value_ l)).
    + apply IH with (fuel' := fuel') in Hrun; [ exact Hrun | exact Hf' | lia ].
    + injection Hrun as <-. cbn in Hf'. congruence.
  - injection Hrun as <-. cbn in Hf'. congruence.
Qed.

(** X11: more tries never change a result that was found: if
    [stepValue(step, n)] is not [null], then for every [m >= n]
    [stepValue(step, m)] is the same value, found after the same number of
    attempts. *)
Theorem X11_stepValue_is_stable_in_maxTries (f : field) (step : value)
  (n m : nat) :
  n <= m ->
  stepValue f step n <> VNull ->
  stepValue f step m = stepValue f step n /\
  stepValue_attempts f step m = stepValue_attempts f step n.
Proof.
  intros Hnm. unfold stepValue, stepValue_attempts, stepValue_run.
  destruct (while (S n) f step n (stepValue_init f)) as [l | ] eqn:Hrun;
    [ | congruence ].
  destruct (valueFound l) eqn:Hf; [ | congruence ].
  intros _.
  rewrite (while_found_more_tries f step n m Hnm (S n) _ l Hrun Hf (S m))
    by lia.
  rewrite Hf. split; reflexivity.
Qed.

(** X12: every value [stepValue] returns, other than [null], is within
    the bounds once filtered: a finite number, not below a set minimum, not
    at or above a set maximum, and accepted by the base validation. *)
Theorem X12_stepValue_result_is_within_bounds (f : field) (step : value)
  (maxTries : nat) :
  stepValue f step maxTries <> VNull ->
  isFinite (filterValue f (stepValue f step maxTries)) = true /\
  (_min f <> VNull ->
   js_lt (filterValue f (stepValue f step maxTries)) (_min f) = false) /\
  (_max f <> VNull ->
   js_ge (filterValue f (stepValue f step maxTries)) (_max f) = false) /\
  Field_validateValue f (filterValue f (stepValue f step maxTries)) = Valid.
Proof.
  intros H. apply stepValue_result_valid in H.
  destruct (validateValue_Valid_inv f _ H) as [_ [Hf [Hlo [Hhi Hb]]]].
  split; [ exact Hf | ]. split; [ | split; [ | exact Hb ] ].
  - intros Hset. apply strict_neq_null in Hset. now rewrite Hset in Hlo.
  - intros Hset. apply strict_neq_null in Hset. now rewrite Hset in Hhi.
Qed.

Lemma while_trace_shape (f : field) (step : value) (maxTries : nat) :
  forall (fuel : nat) (l l' : locals),
    trace_shape f l ->
    while fuel f step maxTries l = Some l' ->
    trace_shape f l'.
Proof.
  induction fuel as [ | fuel IH]; intros l l' Hinv Hrun;
    [ discriminate Hrun | ].
  cbn [while] in Hrun. unfold loop_cond in Hrun.
  destruct (valueFound l) eqn:Hfound.
  - injection Hrun as <-. exact Hinv.
  - destruct Hinv as [Htl [Hall Hhd]].
    destruct ((tries l <? maxTries)%nat && within_limits f step (value_ l)).
    + apply IH in Hrun; [ exact Hrun | ].
      rewrite loop_body_count_try. unfold trace_shape. cbn.
      split; [ exact (Hall Hfound) | ]. split.
      * intros Hrej v [<- | Hv]; [ exact Hrej | exact (Hall Hfound v Hv) ].
      * intros _. eexists. reflexivity.
    + injection Hrun as <-. unfold trace_shape. cbn.
      split; [ exact Htl | ]. split; [ intros _; exact (Hall Hfound) | ].
      rewrite Hfound. discriminate.
Qed.


(** X14: [stepUp] and [stepDown] keep the options and commit only values
    that validate: either the search gave [null] and the field is returned
    as it was, or the value handed to the base [setValue] passed
    [validateValue] and only the base state is replaced. *)
Theorem X14_steps_commit_only_valid_values (f : field) :
  (stepValue f (_step f) default_maxTries = VNull /\ stepUp f = (f, RetThis)
   \/
   validateValue f (stepValue f (_step f) default_maxTries) = Valid /\
   stepUp f =
   (with_base f
      (fst (Field_setValue f (stepValue f (_step f) default_maxTries))),
    snd (Field_setValue f (stepValue f (_step f) default_maxTries)))) /\
  (stepValue f (js_neg (_step f)) default_maxTries = VNull /\
   stepDown f = (f, RetThis)
   \/
   validateValue f (stepValue f (js_neg (_step f)) default_maxTries) = Valid /\
   stepDown f =
   (with_base f
      (fst (Field_setValue f (stepValue f (js_neg (_step f)) default_maxTries))),
    snd (Field_setValue f (stepValue f (js_neg (_step f)) default_maxTries)))) /\
  same_options f (fst (stepUp f)) /\
  same_options f (fst (stepDown f)).
Proof.
  assert (Hstep : forall step : value,
            let v := stepValue f step default_maxTries in
            v = VNull /\ strict_neq v VNull = false \/
            validateValue f v = Valid /\ strict_neq v VNull = true).
  { intros step v.
    destruct (strict_neq v VNull) eqn:Hv.
    - right. split; [ | reflexivity ].
      apply stepValue_result_valid. apply strict_neq_null. exact Hv.
    - left. split; [ | reflexivity ].
      destruct v; try discriminate Hv; reflexivity. }
  split; [ | split; [ | split ] ].
  - unfold stepUp.
    destruct (Hstep (_step f)) as [[Hn Hs] | [Hv Hs]]; rewrite Hs.
    + left. split; [ exact Hn | reflexivity ].
    + right. split; [ exact Hv | ].
      destruct (Field_setValue f _); reflexivity.
  - unfold stepDown.
    destruct (Hstep (js_neg (_step f))) as [[Hn Hs] | [Hv Hs]]; rewrite Hs.
    + left. split; [ exact Hn | reflexivity ].
    + right. split; [ exact Hv | ].
      destruct (Field_setValue f _); reflexivity.
  - exact (perform_same_options CallStepUp f eq_refl).
  - exact (perform_same_options CallStepDown f eq_refl).
Qed.

(** *** Randomisation *)

(** X15: the generic randomisation of the base class comes first.  When
    it yields a value other than [null], [randomizeValue] returns that
    value and the generator as the base left it, whatever the bounds and
    the integer flag are; so a [null] result needs a [null] from the
    base. *)
Theorem X15_randomizeValue_defers_to_base (f : field) (random : Random) :
  (fst (Field_randomizeValue f random) <> VNull ->
   randomizeValue f random = Field_randomizeValue f random) /\
  (fst (randomizeValue f random) = VNull ->
   fst (Field_randomizeValue f random) = VNull).
Proof.
  unfold randomizeValue.
  destruct (Field_randomizeValue f random) as [v r]. cbn [fst].
  destruct (strict_neq v VNull) eqn:Hv.
  - split; [ reflexivity | ].
    cbn [fst]. intros ->. discriminate Hv.
  - assert (v = VNull) by (destruct v; try discriminate Hv; reflexivity).
    subst v. split; [ congruence | reflexivity ].
Qed.

End FurtherProperties.

Section ViewProperties.
Context `{V : ViewEnv}.

(** An edit from a view replaces the base state and nothing else. *)
Lemma viewValueDidChange_same_options (view : View) (v : value) (f : field) :
  same_options f (fst (viewValueDidChange view v f)).
Proof.
  unfold viewValueDidChange.
  destruct (Field_setValue_from f v view) as [b r]. repeat split.
Qed.

Lemma handle_same_options (e : event) (f : field) :
  event_keeps_options e = true -> same_options f (handle e f).
Proof.
  destruct e as [c | view v]; cbn [event_keeps_options handle]; intros He.
  - apply perform_same_options. apply negb_true_iff. exact He.
  - apply viewValueDidChange_same_options.
Qed.

Lemma handle_rotate_needs_bounds (e : event) (f : field) :
  event_keeps_bounds e -> rotate_needs_bounds f ->
  rotate_needs_bounds (handle e f).
Proof.
  destruct e as [c | view v]; cbn [event_keeps_bounds handle]; intros He Hinv.
  - apply perform_rotate_needs_bounds; assumption.
  - destruct (viewValueDidChange_same_options view v f)
      as [_ [_ [Hlo [Hhi [Hr _]]]]].
    unfold rotate_needs_bounds. rewrite Hlo, Hhi, Hr. exact Hinv.
Qed.


End ViewProperties.

(** ** The further properties on the reference collaborators *)

(** X5 on a field constructed with bounds 1 and 10, after [setRotate(true)],
    [setMin(2)], [stepUp()] and [setMax(8)]. *)
Lemma X5_witness :
  getMin
    (@perform_all RefEnv
       [CallSetRotate (VBool true); CallSetMin (VNum 2); CallStepUp;
        CallSetMax (VNum 8)]
       (@constructor RefEnv "n"
          (@Build_Spec RefEnv (VNum 0)
             (Some (ref_options (VNum 1) (VNum 10) VUndefined))))) <> VNull /\
  getMax
    (@perform_all RefEnv
       [CallSetRotate (VBool true); CallSetMin (VNum 2); CallStepUp;
        CallSetMax (VNum 8)]
       (@constructor RefEnv "n"
          (@Build_Spec RefEnv (VNum 0)
             (Some (ref_options (VNum 1) (VNum 10) VUndefined))))) <> VNull.
Proof.
  apply (proj1 (@X5_rotation_needs_bounds_while_bounds_are_kept RefEnv
                  [CallSetRotate (VBool true); CallSetMin (VNum 2); CallStepUp;
                   CallSetMax (VNum 8)]
                  ltac:(repeat constructor; discriminate))).
  reflexivity.
Defined.

(** X7 on a reference field after [stepUp()], [stepDown()] and
    [setNeedsValueDescriptionUpdate()]. *)
Lemma X7_witness :
  @same_options RefEnv
    (ref_field (VNum 3) (VNum 0) (VNum 10) (VBool true) accept_all)
    (@perform_all RefEnv
       [CallStepUp; CallStepDown; CallSetNeedsValueDescriptionUpdate]
       (ref_field (VNum 3) (VNum 0) (VNum 10) (VBool true) accept_all)).
Proof.
  apply (@X7_steps_keep_the_options RefEnv). reflexivity.
Defined.

(** X8 on the value 5 of a reference field with bounds 0 and 10. *)
Lemma X8_witness :
  js_ge
    (@filterValue RefEnv
       (ref_field (VNum 0) (VNum 0) (VNum 10) (VBool false) accept_all)
       (VNum 5))
    (VNum 0) = true /\
  js_lt
    (@filterValue RefEnv
       (ref_field (VNum 0) (VNum 0) (VNum 10) (VBool false) accept_all)
       (VNum 5))
    (VNum 10) = true.
Proof.
  pose (f := ref_field (VNum 0) (VNum 0) (VNum 10) (VBool false) accept_all).
  destruct (@X8_valid_values_are_within_bounds RefEnv f (VNum 5) eq_refl)
    as [_ [_ [_ [_ [Hlo [Hhi _]]]]]].
  split; [ exact (Hlo 0%float eq_refl eq_refl)
         | exact (Hhi 10%float eq_refl eq_refl) ].
Defined.

(** X9 on a rotating reference field whose bounds are both 5. *)
Lemma X9_witness :
  @stepValue RefEnv
    (ref_field (VNum 5) (VNum 5) (VNum 5) (VBool true) accept_all)
    (VNum 1) default_maxTries = VNull /\
  failure_key
    (@validateValue RefEnv
       (ref_field (VNum 5) (VNum 5) (VNum 5) (VBool true) accept_all)
       (VNum 5)) = Some "numberTooLarge".
Proof.
  pose (f := ref_field (VNum 5) (VNum 5) (VNum 5) (VBool true) accept_all).
  destruct (@X9_empty_range_has_no_valid_value RefEnv f 5 5
              eq_refl eq_refl eq_refl) as [_ Hnull].
  split; [ exact (Hnull (VNum 1) default_maxTries
                    ltac:(vm_compute; discriminate))
         | reflexivity ].
Defined.

(** X10 on a non-rotating reference field at 2 whose validator accepts
    the multiples of five only: stepping up by 1 tries 3, 4 and 5 and
    returns 5. *)
Lemma X10_witness :
  @stepValue RefEnv
    (ref_field (VNum 2) (VNum 0) (VNum 20) (VBool false) only_fives)
    (VNum 1) default_maxTries = VNum 5 /\
  @stepValue_attempts RefEnv
    (ref_field (VNum 2) (VNum 0) (VNum 20) (VBool false) only_fives)
    (VNum 1) default_maxTries = 3.
Proof.
  pose (f := ref_field (VNum 2) (VNum 0) (VNum 20) (VBool false) only_fives).
  apply (@X10_stepValue_returns_first_valid_candidate RefEnv f (VNum 1)
           default_maxTries 2).
  - unfold default_maxTries. lia.
  - intros j Hj. destruct j as [ | [ | [ | j]]]; [ reflexivity .. | lia ].
  - intros j Hj. destruct j as [ | [ | j]]; [ reflexivity .. | lia ].
  - reflexivity.
Defined.

(** X11 on the rotating reference field at 9: the 0 found with two tries
    is the result with a hundred. *)
Lemma X11_witness :
  @stepValue RefEnv
    (ref_field (VNum 9) (VNum 0) (VNum 10) (VBool true) accept_all)
    (VNum 1) 100 = VNum 0.
Proof.
  pose (f := ref_field (VNum 9) (VNum 0) (VNum 10) (VBool true) accept_all).
  apply (proj1 (@X11_stepValue_is_stable_in_maxTries RefEnv f (VNum 1) 2 100
                  ltac:(lia) ltac:(vm_compute; discriminate))).
Defined.

(** X12 on the same field: the 0 it returns is inside the bounds. *)
Lemma X12_witness :
  js_lt
    (@filterValue RefEnv
       (ref_field (VNum 9) (VNum 0) (VNum 10) (VBool true) accept_all)
       (@stepValue RefEnv
          (ref_field (VNum 9) (VNum 0) (VNum 10) (VBool true) accept_all)
          (VNum 1) default_maxTries))
    (VNum 0) = false /\
  js_ge
    (@filterValue RefEnv
       (ref_field (VNum 9) (VNum 0) (VNum 10) (VBool true) accept_all)
       (@stepValue RefEnv
          (ref_field (VNum 9) (VNum 0) (VNum 10) (VBool true) accept_all)
          (VNum 1) default_maxTries))
    (VNum 10) = false.
Proof.
  pose (f := ref_field (VNum 9) (VNum 0) (VNum 10) (VBool true) accept_all).
  destruct (@X12_stepValue_result_is_within_bounds RefEnv f (VNum 1)
              default_maxTries ltac:(vm_compute; discriminate))
    as [_ [Hlo [Hhi _]]].
  split; [ apply Hlo | apply Hhi ]; discriminate.
Defined.

(** X15 on a base whose generic randomisation yields the stored 3: the
    bounds 0 and 10 play no part. *)
Lemma X15_witness :
  @randomizeValue RandEnv
    (ref_field (VNum 3) (VNum 0) (VNum 10) (VBool false) accept_all) tt
  = (VNum 3, tt).
Proof.
  apply (proj1 (@X15_randomizeValue_defers_to_base RandEnv
                  (ref_field (VNum 3) (VNum 0) (VNum 10) (VBool false)
                     accept_all) tt)).
  discriminate.
Defined.

(** X17 on a reference field whose bounds are both [undefined]: 1000
    validates, and [setRotate(true)] turns rotation on. *)
Lemma X17_witness :
  @validateValue RefEnv
    (ref_field (VNum 0) VUndefined VUndefined (VBool false) accept_all)
    (VNum 1000) = Valid /\
  isRotate
    (fst (@setRotate RefEnv (VBool true)
            (ref_field (VNum 0) VUndefined VUndefined (VBool false)
               accept_all))) = VBool true.
Proof.
  pose (f := ref_field (VNum 0) VUndefined VUndefined (VBool false) accept_all).
  destruct (@X17_non_numeric_bounds_are_not_enforced RefEnv f) as [Hv Hr].
  split; [ exact (Hv eq_refl eq_refl (VNum 1000) eq_refl)
         | exact (Hr eq_refl eq_refl) ].
Defined.


